(** * Stingray base classes: a shallow embedding of [stingray/base.py]

    The development follows the Python module class by class.  Python
    objects live in a store indexed by object identity; arrays carry the
    identity of the buffer they read from, so that sharing between two
    objects is visible.  Methods are computations in a small state and
    exception monad over that store.

    Numbers are exact rationals, kept in lowest terms: every value of the
    scenarios below (small integers and halves) is exactly representable
    in binary floating point, so the runs compute what the code computes.
    The interval that the [gti] property derives, the length of a GTI
    segment and the product of the rebinning factor and [dt] are stated
    in theorems for arbitrary numbers: there the model follows the code
    only as long as binary floating point does not round, and is out of
    the model otherwise.  NaN and dtypes are not represented; a series
    that asks for extended precision is out of the model. *)

From Stdlib Require Import QArith Qround.
From stdpp Require Import base option list sorting strings gmap.

Open Scope string_scope.

(** ** NumPy values *)

Definition loc := nat.
Definition oid := nat.

(** One-dimensional arrays and arrays of shape (n, 2); the latter is the
    shape of a GTI list. *)
Inductive payload :=
| A1 (xs : list Q)
| A2 (rows : list (Q * Q)).

(** An [ndarray] is a payload seen through a buffer: a view made by basic
    slicing keeps the [buf] of the array it was cut from. *)
Record ndarray := NdArray { buf : loc; elems : payload }.

Inductive pyvalue :=
| VNone
| VBool (b : bool)
| VNum (q : Q)
| VStr (s : string)
| VArr (a : ndarray)
| VCallable (f : nat).

Definition qadd (a b : Q) : Q := Qred (a + b).
Definition qsub (a b : Q) : Q := Qred (a - b).
Definition qmul (a b : Q) : Q := Qred (a * b).
Definition qhalf (a : Q) : Q := Qred (a / 2).
Definition qneg (a : Q) : Q := Qred (- a).
Definition qlt (a b : Q) : bool := negb (Qle_bool b a).

(** The rationals that a double holds: in lowest terms the denominator is
    a power of two and the numerator fits the 53 bits of the significand.
    (The bound on the exponent is kept well inside the range of a
    double.)  An operation of IEEE arithmetic whose exact result is such a
    number returns it. *)
Fixpoint power_of_two (p : positive) : bool :=
  match p with
  | xH => true
  | xO p => power_of_two p
  | xI _ => false
  end.

Definition exact (q : Q) : bool :=
  power_of_two (Qden (Qred q))
  && (Z.abs (Qnum (Qred q)) <? 2 ^ 53)%Z
  && (Pos.size_nat (Qden (Qred q)) <=? 1000)%nat.

Definition of_option (a : option ndarray) : pyvalue :=
  match a with Some a => VArr a | None => VNone end.

(** [np.shape(p)[0]] *)
Definition plen (p : payload) : nat :=
  match p with A1 xs => length xs | A2 rows => length rows end.

(** [np.size(p)] *)
Definition psize (p : payload) : nat :=
  match p with A1 xs => length xs | A2 rows => 2 * length rows end.

Fixpoint list_eqb {A} (eqb : A → A → bool) (l1 l2 : list A) : bool :=
  match l1, l2 with
  | [], [] => true
  | x :: l1, y :: l2 => eqb x y && list_eqb eqb l1 l2
  | _, _ => false
  end.

Definition pair_eqb (p q : Q * Q) : bool :=
  Qeq_bool p.1 q.1 && Qeq_bool p.2 q.2.

Definition payload_equal (p q : payload) : bool :=
  match p, q with
  | A1 xs, A1 ys => list_eqb Qeq_bool xs ys
  | A2 xs, A2 ys => list_eqb pair_eqb xs ys
  | _, _ => false
  end.

Definition of_bool (b : bool) : Q := if b then 1 else 0.

(** [a == b] between two Python scalars. *)
Definition scalar_eq (a b : pyvalue) : bool :=
  match a, b with
  | VBool x, VBool y => Qeq_bool (of_bool x) (of_bool y)
  | VBool x, VNum y => Qeq_bool (of_bool x) y
  | VNum x, VBool y => Qeq_bool x (of_bool y)
  | VNum x, VNum y => Qeq_bool x y
  | VStr x, VStr y => String.eqb x y
  | _, _ => false
  end.

(** [np.array_equal(a, b)]: same shape and equal elements.  [None] and
    callables become zero-dimensional object arrays, compared by
    identity. *)
Definition array_equal (a b : pyvalue) : bool :=
  match a, b with
  | VArr x, VArr y => payload_equal (elems x) (elems y)
  | VNone, VNone => true
  | VCallable f, VCallable g => Nat.eqb f g
  | VArr _, _ | _, VArr _ => false
  | _, _ => scalar_eq a b
  end.

(** [np.isscalar] *)
Definition isscalar (v : pyvalue) : bool :=
  match v with VBool _ | VNum _ | VStr _ => true | _ => false end.

(** [isinstance(v, Iterable)] *)
Definition is_iterable (v : pyvalue) : bool :=
  match v with VStr _ | VArr _ => true | _ => false end.

Definition is_str (v : pyvalue) : bool :=
  match v with VStr _ => true | _ => false end.

Definition callable (v : pyvalue) : bool :=
  match v with VCallable _ => true | _ => false end.

Definition is_none (v : pyvalue) : bool :=
  match v with VNone => true | _ => false end.

(** [np.asarray(v).dtype == "O"] *)
Definition dtype_is_object (v : pyvalue) : bool :=
  match v with VNone | VCallable _ => true | _ => false end.

(** [np.shape(v)[0]] for the values that have a leading dimension. *)
Definition shape0 (v : pyvalue) : option nat :=
  match v with VArr a => Some (plen (elems a)) | _ => None end.

(** [np.size(v)] *)
Definition size (v : pyvalue) : nat :=
  match v with VArr a => psize (elems a) | _ => 1 end.

(** ** Strings *)

Definition startswith (pre s : string) : bool := String.prefix pre s.

Definition endswith (suf s : string) : bool :=
  let n := String.length s in
  let k := String.length suf in
  (k <=? n)%nat && String.eqb (String.substring (n - k) k s) suf.

Definition lower_ascii (c : Ascii.ascii) : Ascii.ascii :=
  let n := Ascii.nat_of_ascii c in
  if (65 <=? n)%nat && (n <=? 90)%nat then Ascii.ascii_of_nat (n + 32) else c.

(** [s.lower()] on ASCII names *)
Fixpoint lower (s : string) : string :=
  match s with
  | EmptyString => EmptyString
  | String c s => String (lower_ascii c) (lower s)
  end.

(** [name in names] *)
Definition mem (name : string) (names : list string) : bool :=
  existsb (String.eqb name) names.

(** ** Objects

    [StingrayTimeseries] is the only concrete class of the module, so every
    object of the store is one.  Its two private array fields are typed;
    everything else is an entry of the instance dictionary. *)
Record obj := Obj {
  _time : option ndarray;
  _gti : option ndarray;
  __dict__ : gmap string pyvalue
}.

Definition main_array_attr : string := "time".
Definition not_array_attr : list string := ["gti"].

(** The properties of the class: [time] and [gti] have setters, [mask] and
    [n] are read-only. *)
Definition properties : list string := ["time"; "gti"; "mask"; "n"].

(** Functions defined by the two classes.  The names inherited from
    [object] all start with two underscores, as the special methods below
    do, and are dropped by the first test of [data_attributes]. *)
Definition methods : list string :=
  [ "__init__"; "__eq__"; "__add__"; "__iadd__"; "__sub__"; "__isub__";
    "__neg__"; "__len__"; "__getitem__";
    "array_attrs"; "data_attributes"; "internal_array_attrs"; "meta_attrs";
    "_default_operated_attrs"; "_default_error_attrs"; "get_meta_dict";
    "to_astropy_table"; "from_astropy_table"; "to_xarray"; "from_xarray";
    "to_pandas"; "from_pandas"; "read"; "write"; "apply_mask";
    "_operation_with_other_obj"; "add"; "sub";
    "_set_times"; "_check_value_size"; "apply_gtis"; "split_by_gti";
    "to_astropy_timeseries"; "from_astropy_timeseries"; "change_mjdref";
    "shift"; "truncate"; "_truncate_by_index"; "_truncate_by_time";
    "concatenate"; "_join_timeseries"; "join"; "rebin"; "sort"; "plot" ].

(** Class-level data: [_time = None], [high_precision = False],
    [mjdref = 0.0], [dt = 0.0]. *)
Definition class_data : list (string * pyvalue) :=
  [ ("high_precision", VBool false); ("mjdref", VNum 0); ("dt", VNum 0) ].

Definition class_namespace : list string :=
  (["main_array_attr"; "not_array_attr"; "_time"] ++ class_data.*1
   ++ properties ++ methods)%list.

Definition class_lookup (name : string) : option pyvalue :=
  match list_find (λ kv, kv.1 = name) class_data with
  | Some (_, kv) => Some kv.2
  | None => if mem name methods then Some (VCallable 0) else None
  end.

(** [dir(self)]: the sorted names of the instance and of its class. *)
Definition dir (self : obj) : list string :=
  merge_sort String.leb
    (remove_dups (("_gti" :: (map_to_list (__dict__ self)).*1) ++ class_namespace)%list).

(** [getattr(self, name)] for a name that is neither a property nor one of
    the two class settings: instance first, then class. *)
Definition lookup_attr (self : obj) (name : string) : option pyvalue :=
  if String.eqb name "_time" then Some (of_option (_time self))
  else if String.eqb name "_gti" then Some (of_option (_gti self))
  else match __dict__ self !! name with
       | Some v => Some v
       | None => class_lookup name
       end.

(** ** Attribute classification *)

Module AttributeClassifier.


(** Attribute values are never themselves objects of the store, so the
    test [isinstance(value, StingrayObject)] has no counterpart. *)
Definition data_attributes (self : obj) : list string :=
  List.filter
    (λ attr,
       negb (startswith "__" attr)
       && negb (mem attr ["main_array_attr"; "not_array_attr"])
       && negb (mem attr properties)
       && match lookup_attr self attr with
          | Some value => negb (callable value) && negb (dtype_is_object value)
          | None => false
          end)
    (dir self).

Definition array_attrs (self : obj) : list string :=
  match _time self with
  | None => []
  | Some main_attr =>
      List.filter
        (λ attr,
           negb (startswith "_" attr)
           && negb (String.eqb attr main_array_attr)
           && match lookup_attr self attr with
              | Some value =>
                  is_iterable value
                  && negb (mem attr not_array_attr)
                  && negb (is_str value)
                  && bool_decide (shape0 value = Some (plen (elems main_attr)))
              | None => false
              end)
        (data_attributes self)
  end.

Definition internal_array_attrs (self : obj) : list string :=
  match _time self with
  | None => []
  | Some main_attr_value =>
      List.filter
        (λ attr,
           negb (String.eqb attr ("_" ++ main_array_attr))
           && negb (mem attr (List.map (λ a, "_" ++ a) not_array_attr))
           && match lookup_attr self attr with
              | Some value =>
                  negb (isscalar value)
                  && negb (is_none value)
                  && negb (Nat.eqb (size value) 0)
                  && startswith "_" attr
                  && bool_decide (shape0 value = Some (plen (elems main_attr_value)))
              | None => false
              end)
        (data_attributes self)
  end.

Definition meta_attrs (self : obj) : list string :=
  let array_attrs :=
    (array_attrs self ++ [main_array_attr] ++ internal_array_attrs self)%list in
  let all_meta_attrs :=
    List.filter
      (λ attr, negb (mem attr array_attrs) && negb (startswith "_" attr))
      (data_attributes self) in
  if (1 <=? length not_array_attr)%nat
  then (all_meta_attrs ++ not_array_attr)%list
  else all_meta_attrs.

Definition _default_operated_attrs (self : obj) : list string :=
  List.filter (λ attr, negb (endswith "_err" attr)) (array_attrs self).

Definition _default_error_attrs (self : obj) : list string :=
  List.filter (λ attr, endswith "_err" attr) (array_attrs self).

End AttributeClassifier.

(** ** The object store and its monad *)

Inductive exn :=
| ValueError (msg : string)
| TypeError (msg : string)
| IndexError (msg : string)
| AttributeError (msg : string)
| RecursionError
| OutOfModel (msg : string).

Record world := World {
  objs : gmap oid obj;
  next_oid : oid;
  next_buf : loc;
  warnings : list string
}.

Inductive outcome (A : Type) :=
| Ok (a : A) (w : world)
| Raise (e : exn) (w : world).
Arguments Ok {A} a w.
Arguments Raise {A} e w.

(** A method call: it reads and updates the store, and either returns or
    raises; what it wrote before raising stays written. *)
Definition M (A : Type) : Type := world → outcome A.

#[export] Instance M_ret : MRet M := λ A a w, Ok a w.
#[export] Instance M_bind : MBind M := λ A B f m w,
  match m w with
  | Ok a w' => f a w'
  | Raise e w' => Raise e w'
  end.

Definition raise {A} (e : exn) : M A := λ w, Raise e w.

(** Computations that may raise but leave the store alone. *)
#[export] Instance result_ret : MRet (sum exn) := λ A a, inr a.
#[export] Instance result_bind : MBind (sum exn) := λ A B f m,
  match m with
  | inl e => inl e
  | inr a => f a
  end.

Definition lift {A} (r : exn + A) : M A :=
  match r with inl e => raise e | inr a => mret a end.

(** [warnings.warn(msg)] *)
Definition warn (msg : string) : M unit :=
  λ w, Ok () (World (objs w) (next_oid w) (next_buf w) (warnings w ++ [msg])).

Definition fresh_buf : M loc :=
  λ w, Ok (next_buf w) (World (objs w) (next_oid w) (S (next_buf w)) (warnings w)).

Definition load (o : oid) : M obj :=
  λ w, match objs w !! o with
       | Some ob => Ok ob w
       | None => Raise (OutOfModel "no such object") w
       end.

Definition store (o : oid) (ob : obj) : M unit :=
  λ w, Ok () (World (<[o := ob]> (objs w)) (next_oid w) (next_buf w) (warnings w)).

Definition alloc (ob : obj) : M oid :=
  λ w, Ok (next_oid w)
          (World (<[next_oid w := ob]> (objs w)) (S (next_oid w)) (next_buf w) (warnings w)).

(** [for x in l: body(x)] *)
Fixpoint for_each {A} (l : list A) (body : A → M unit) : M unit :=
  match l with
  | [] => mret ()
  | x :: l => body x;; for_each l body
  end.

(** ** NumPy operations that allocate *)

(** [np.array(xs)] and every other call that builds a new array. *)
Definition new_array (p : payload) : M pyvalue :=
  b ← fresh_buf; mret (VArr (NdArray b p)).

(** [copy.deepcopy(v)] *)
Definition deepcopy (v : pyvalue) : M pyvalue :=
  match v with
  | VArr a => new_array (elems a)
  | _ => mret v
  end.

(** An index as [apply_mask] receives it: a Boolean mask or a [slice]. *)
Inductive index :=
| IBool (mask : list bool)
| ISlice (start stop step : option Z).

Fixpoint compress {A} (mask : list bool) (l : list A) : list A :=
  match mask, l with
  | b :: mask, x :: l => if b then x :: compress mask l else compress mask l
  | _, _ => []
  end.

Definition pmap_list (f : ∀ A, list A → list A) (p : payload) : payload :=
  match p with A1 xs => A1 (f _ xs) | A2 rows => A2 (f _ rows) end.

(** The bounds of [slice(start, stop, step).indices(len)]. *)
Definition adjust (i len : Z) (neg : bool) : Z :=
  if (i <? 0)%Z
  then (if (i + len <? 0)%Z then (if neg then -1 else 0) else i + len)%Z
  else (if (len <=? i)%Z then (if neg then len - 1 else len) else i)%Z.

Definition slice_indices (start stop step : option Z) (len : nat) : exn + list nat :=
  let n := Z.of_nat len in
  let step := default 1%Z step in
  if (step =? 0)%Z then inl (ValueError "slice step cannot be zero")
  else
    let neg := (step <? 0)%Z in
    let lo := match start with
              | Some s => adjust s n neg
              | None => if neg then (n - 1)%Z else 0%Z
              end in
    let hi := match stop with
              | Some s => adjust s n neg
              | None => if neg then (-1)%Z else n
              end in
    let count :=
      if neg
      then (if (hi <? lo)%Z then (lo - hi - 1) / (- step) + 1 else 0)%Z
      else (if (lo <? hi)%Z then (hi - lo - 1) / step + 1 else 0)%Z in
    inr (List.map (λ i, Z.to_nat (lo + Z.of_nat i * step)) (seq 0 (Z.to_nat count))).

Definition take {A} (idx : list nat) (l : list A) : list A :=
  omap (λ i, l !! i) idx.

(** [a[start:stop:step]] on an array: a view of the same buffer. *)
Definition view (a : ndarray) (start stop step : option Z) : exn + ndarray :=
  match slice_indices start stop step (plen (elems a)) with
  | inl e => inl e
  | inr idx => inr (NdArray (buf a) (pmap_list (λ _, take idx) (elems a)))
  end.

(** [np.asarray(v)[ix]]: a Boolean mask copies the selected rows, a slice
    makes a view. *)
Definition index_array (v : pyvalue) (ix : index) : M pyvalue :=
  match v with
  | VArr a =>
      match ix with
      | IBool mask =>
          if Nat.eqb (length mask) (plen (elems a))
          then new_array (pmap_list (λ _, compress mask) (elems a))
          else raise (IndexError "boolean index did not match indexed array")
      | ISlice start stop step =>
          a' ← lift (view a start stop step); mret (VArr a')
      end
  | _ => raise (IndexError "too many indices for array")
  end.

(** [v[start:stop:step]] on an attribute value. *)
Definition subscript (v : pyvalue) (start stop step : option Z) : M pyvalue :=
  match v with
  | VArr a => a' ← lift (view a start stop step); mret (VArr a')
  | VStr _ => raise (OutOfModel "slice of a string")
  | _ => raise (TypeError "object is not subscriptable")
  end.

(** The number a scalar stands for in arithmetic. *)
Definition as_number (v : pyvalue) : exn + Q :=
  match v with
  | VNum q => inr q
  | VBool b => inr (of_bool b)
  | VArr _ => inl (OutOfModel "array where a scalar is expected")
  | _ => inl (TypeError "unsupported operand type(s)")
  end.

Definition zip_with_broadcast {A} (f : A → A → A) (xs ys : list A) : exn + list A :=
  match xs, ys with
  | [x], _ => inr (List.map (f x) ys)
  | _, [y] => inr (List.map (λ x, f x y) xs)
  | _, _ =>
      if Nat.eqb (length xs) (length ys)
      then inr (zip_with f xs ys)
      else inl (ValueError "operands could not be broadcast together")
  end.

(** [operation(a, b)] for an element-wise NumPy function of two arguments. *)
Definition np_binop (f : Q → Q → Q) (a b : pyvalue) : M pyvalue :=
  match a, b with
  | VArr x, VArr y =>
      match elems x, elems y with
      | A1 xs, A1 ys => r ← lift (zip_with_broadcast f xs ys); new_array (A1 r)
      | A2 xs, A2 ys =>
          r ← lift (zip_with_broadcast (λ p q, (f p.1 q.1, f p.2 q.2)) xs ys);
          new_array (A2 r)
      | _, _ => raise (OutOfModel "operands of different rank")
      end
  | VArr x, _ =>
      q ← lift (as_number b);
      new_array (match elems x with
                 | A1 xs => A1 (List.map (λ v, f v q) xs)
                 | A2 xs => A2 (List.map (λ p, (f p.1 q, f p.2 q)) xs)
                 end)
  | _, VArr y =>
      q ← lift (as_number a);
      new_array (match elems y with
                 | A1 ys => A1 (List.map (f q) ys)
                 | A2 ys => A2 (List.map (λ p, (f q p.1, f q p.2)) ys)
                 end)
  | _, _ =>
      x ← lift (as_number a); y ← lift (as_number b); mret (VNum (f x y))
  end.

(** ** The fields of a time series: properties, [getattr] and [setattr] *)

Module TimeseriesFields.

Definition set_dict (self : oid) (name : string) (v : pyvalue) : M unit :=
  o ← load self;
  store self (Obj (_time o) (_gti o) (<[name := v]> (__dict__ o))).

Definition pick {A} (at_end : bool) (l : list A) : option A :=
  if at_end then last l else head l.

(** [v[0]] and [v[-1]] *)
Definition item (at_end : bool) (v : pyvalue) : exn + pyvalue :=
  match v with
  | VArr a =>
      match elems a with
      | A1 xs =>
          match pick at_end xs with
          | Some x => inr (VNum x)
          | None => inl (IndexError "index out of bounds")
          end
      | A2 _ => inl (OutOfModel "row of a two-dimensional array")
      end
  | VStr s =>
      match pick at_end (String.list_ascii_of_string s) with
      | Some c => inr (VStr (String c EmptyString))
      | None => inl (IndexError "string index out of range")
      end
  | _ => inl (TypeError "object is not subscriptable")
  end.

(** A number that floating-point arithmetic is asked to hold: outside the
    model when a double would round it. *)
Definition unrounded (q : Q) : exn + Q :=
  if exact q then inr q
  else inl (OutOfModel "a number that binary floating point rounds").

(** The interval that the [gti] property builds around the time stamps
    [t] when no GTI was set. *)
Definition derive_gti (self : obj) (t : ndarray) : exn + payload :=
  let dt := default VNone (lookup_attr self "dt") in
  '(dt0, dt1) ← (if is_iterable dt
                 then dt0 ← item false dt; dt1 ← item true dt; mret (dt0, dt1)
                 else mret (dt, dt));
  t0 ← item false (VArr t) ≫= as_number;
  h0 ← as_number dt0;
  t1 ← item true (VArr t) ≫= as_number;
  h1 ← as_number dt1;
  t0 ← unrounded t0;
  h0 ← unrounded h0;
  h0 ← unrounded (qhalf h0);
  lo ← unrounded (qsub t0 h0);
  t1 ← unrounded t1;
  h1 ← unrounded h1;
  h1 ← unrounded (qhalf h1);
  hi ← unrounded (qadd t1 h1);
  mret (A2 [(lo, hi)]).

(** The [gti] property: the derived interval is stored in [_gti]. *)
Definition gti_getter (self : oid) : M pyvalue :=
  o ← load self;
  match _gti o, _time o with
  | None, Some t =>
      p ← lift (derive_gti o t);
      b ← fresh_buf;
      store self (Obj (_time o) (Some (NdArray b p)) (__dict__ o));;
      mret (VArr (NdArray b p))
  | g, _ => mret (of_option g)
  end.

(** The [gti] setter. *)
Definition gti_setter (self : oid) (value : pyvalue) : M unit :=
  o ← load self;
  match value with
  | VNone => store self (Obj (_time o) None (__dict__ o))
  | VArr a => store self (Obj (_time o) (Some a) (<["_mask" := VNone]> (__dict__ o)))
  | _ => raise (OutOfModel "zero-dimensional GTI")
  end.

(** [getattr(self, name)].  The read-only properties [mask] and [n] are
    read by no method below. *)
Definition getattr (self : oid) (name : string) : M pyvalue :=
  if String.eqb name "time" then o ← load self; mret (of_option (_time o))
  else if String.eqb name "gti" then gti_getter self
  else if mem name ["mask"; "n"; "main_array_attr"; "not_array_attr"]
  then raise (OutOfModel name)
  else o ← load self;
       match lookup_attr o name with
       | Some v => mret v
       | None => raise (AttributeError name)
       end.

(** [getattr(self, name, dflt)] *)
Definition getattr_default (self : oid) (name : string) (dflt : pyvalue) : M pyvalue :=
  λ w, match getattr self name w with
       | Raise (AttributeError _) w' => Ok dflt w'
       | r => r
       end.

(** Assignment to a name that is not a property. *)
Definition setattr_plain (self : oid) (name : string) (v : pyvalue) : M unit :=
  let typed (upd : obj → option ndarray → obj) :=
    o ← load self;
    match v with
    | VNone => store self (upd o None)
    | VArr a => store self (upd o (Some a))
    | _ => raise (OutOfModel name)
    end in
  if String.eqb name "_time" then typed (λ o a, Obj a (_gti o) (__dict__ o))
  else if String.eqb name "_gti" then typed (λ o a, Obj (_time o) a (__dict__ o))
  else set_dict self name v.

(** The truth value of [v] as the condition of an [if]. *)
Definition truth (v : pyvalue) : exn + bool :=
  match v with
  | VNone => inr false
  | VBool b => inr b
  | VNum q => inr (negb (Qeq_bool q 0))
  | VStr s => inr (negb (String.eqb s ""))
  | VCallable _ => inr true
  | VArr _ => inl (OutOfModel "truth value of an array")
  end.

(** With [high_precision] the time stamps are converted to
    [np.longdouble], a dtype this development does not represent. *)
Definition _set_times (self : oid) (time : pyvalue) (high_precision : pyvalue) : M unit :=
  match time with
  | VNone => setattr_plain self "_time" VNone
  | VArr a =>
      if Nat.eqb (psize (elems a)) 0 then setattr_plain self "_time" VNone
      else
        extended ← lift (truth high_precision);
        if extended : bool then raise (OutOfModel "time stamps in extended precision")
        else setattr_plain self "_time" time
  | VNum _ | VBool _ => raise (OutOfModel "zero-dimensional time")
  | VStr _ | VCallable _ => raise (ValueError "Unknown time format")
  end.

Definition _check_value_size (self : oid) (value : pyvalue)
    (attr_name compare_to_attr : string) : M pyvalue :=
  match value with
  | VNone => mret VNone
  | VArr a =>
      compare_with ← getattr_default self compare_to_attr VNone;
      if String.eqb attr_name compare_to_attr && is_none compare_with
      then mret value
      else if is_none compare_with
      then raise (ValueError "Can only assign new array if the reference array is not None")
      else match shape0 compare_with with
           | Some n =>
               if Nat.eqb (plen (elems a)) n then mret value
               else raise (ValueError "Can only assign new array of the same shape")
           | None => raise (AttributeError "shape")
           end
  | _ => raise (ValueError "array must be at least 1D")
  end.

(** The [time] setter.  The names it clears come from the classifier, so
    none of them is a property. *)
Definition time_setter (self : oid) (value : pyvalue) : M unit :=
  value ← _check_value_size self value "time" "time";
  (if is_none value
   then o ← load self;
        for_each (AttributeClassifier.internal_array_attrs o
                  ++ AttributeClassifier.array_attrs o)%list
          (λ attr, setattr_plain self attr VNone)
   else mret ());;
  high_precision ← getattr self "high_precision";
  _set_times self value high_precision.

(** [setattr(self, name, v)] *)
Definition setattr (self : oid) (name : string) (v : pyvalue) : M unit :=
  if String.eqb name "time" then time_setter self v
  else if String.eqb name "gti" then gti_setter self v
  else if mem name ["mask"; "n"] then raise (AttributeError "can't set attribute")
  else setattr_plain self name v.

(** The constructor.  [time], [gti] and the values of [array_attrs] are
    given as Python lists, which [np.asarray] turns into new arrays. *)
Definition __init__ (time : option (list Q)) (array_attrs : list (string * list Q))
    (mjdref notes : pyvalue) (gti : option (list (Q * Q)))
    (high_precision ephem timeref timesys : pyvalue)
    (other_kw : list (string * pyvalue)) : M oid :=
  self ← alloc (Obj None None ∅);
  setattr self "notes" notes;;
  setattr self "mjdref" mjdref;;
  (match gti with
   | Some rows => g ← new_array (A2 rows); setattr self "gti" g
   | None => setattr self "gti" VNone
   end);;
  setattr self "ephem" ephem;;
  setattr self "timeref" timeref;;
  setattr self "timesys" timesys;;
  setattr self "_mask" VNone;;
  setattr self "high_precision" high_precision;;
  setattr self "dt"
    (match list_find (λ kv, kv.1 = "dt") other_kw with
     | Some (_, kv) => kv.2
     | None => VNum 0
     end);;
  (match time with
   | Some xs => t ← new_array (A1 xs); _set_times self t high_precision
   | None => _set_times self VNone high_precision
   end);;
  for_each (List.filter (λ kv, negb (String.eqb kv.1 "dt")) other_kw)
    (λ kv, setattr self kv.1 kv.2);;
  for_each array_attrs
    (λ kv, new_arr ← new_array (A1 kv.2);
           t ← getattr self "time";
           match shape0 t with
           | None => raise (AttributeError "shape")
           | Some n =>
               if Nat.eqb n (length kv.2) then setattr self kv.1 new_arr
               else raise (ValueError "Lengths of time and array must be equal.")
           end);;
  mret self.

(** [type(self)()] *)
Definition new_instance : M oid :=
  __init__ None [] (VNum 0) (VStr "") None (VBool false) VNone VNone VNone [].

End TimeseriesFields.

(** ** Class [StingrayObject] *)

(** The right-hand operand of [==], [+] and [-]: an object of the store or
    any other Python value. *)
Inductive operand :=
| PObj (o : oid)
| PVal (v : pyvalue).

(** A Python [dict]: keys in order of first insertion. *)
Fixpoint dict_set {V} (k : string) (v : V) (d : list (string * V)) : list (string * V) :=
  match d with
  | [] => [(k, v)]
  | (k', v') :: d => if String.eqb k' k then (k, v) :: d else (k', v') :: dict_set k v d
  end.

(** An Astropy [Table]: named columns of equal length and a [meta] dict. *)
Record Table := MkTable {
  columns : list (string * ndarray);
  meta : list (string * pyvalue)
}.

Definition colnames (ts : Table) : list string := (columns ts).*1.

(** [len(ts)]: the number of rows. *)
Definition table_len (ts : Table) : nat :=
  match columns ts with
  | [] => 0
  | (_, c) :: _ => plen (elems c)
  end.

(** [set(a) == set(b)] *)
Definition set_eq (a b : list string) : bool :=
  forallb (λ x, mem x b) a && forallb (λ x, mem x a) b.

(** A loop that returns [False] from the method as soon as one test fails. *)
Fixpoint all_equal (attrs : list string) (test : string → M bool) : M bool :=
  match attrs with
  | [] => mret true
  | attr :: attrs =>
      same ← test attr; if same : bool then all_equal attrs test else mret false
  end.

(** The signature under which [self._operation_with_other_obj] is looked
    up: the last argument is the keyword [inplace], when the caller passes
    it. *)
Definition operation_method : Type :=
  oid → operand → (Q → Q → Q) → option (list string) → option (list string)
  → option (Q → Q → Q) → option bool → M oid.

Module StingrayObject.
Import AttributeClassifier TimeseriesFields.

Section with_sqrt.
(** [np.sqrt], which has no rational counterpart. *)
Variable np_sqrt : Q → Q.

Definition sqsum (array1 array2 : Q) : Q :=
  np_sqrt (qadd (qmul array1 array1) (qmul array2 array2)).

Definition isinstance_of_self (other : operand) : bool :=
  match other with PObj _ => true | PVal _ => false end.

Definition __eq__ (self : oid) (other_ts : operand) : M bool :=
  match other_ts with
  | PVal _ => raise (ValueError "can only be compared with an object of the same type")
  | PObj other =>
      s ← load self; o ← load other;
      if negb (set_eq (array_attrs s) (array_attrs o)) then mret false
      else if negb (set_eq (meta_attrs s) (meta_attrs o)) then mret false
      else
        s ← load self;
        meta_ok ← all_equal (meta_attrs s)
          (λ attr,
             a ← getattr self attr; b ← getattr other attr;
             if negb (eqb (isscalar a) (isscalar b)) then mret false
             else
               a ← getattr self attr;
               a' ← getattr_default self attr VNone;
               b' ← getattr_default other attr VNone;
               if isscalar a then mret (scalar_eq a' b')
               else mret (array_equal a' b'));
        if negb meta_ok then mret false
        else
          s ← load self;
          arrays_ok ← all_equal (array_attrs s)
            (λ attr, a ← getattr self attr; b ← getattr other attr;
                     mret (array_equal a b));
          if negb arrays_ok then mret false
          else
            s ← load self;
            all_equal (internal_array_attrs s)
              (λ attr, a ← getattr self attr; b ← getattr other attr;
                       mret (array_equal a b))
  end.

Fixpoint collect_meta (self : oid) (keys : list string)
    (meta_dict : list (string * pyvalue)) : M (list (string * pyvalue)) :=
  match keys with
  | [] => mret meta_dict
  | key :: keys =>
      val ← getattr self key;
      collect_meta self keys
        (if is_none val then meta_dict else dict_set key val meta_dict)
  end.

Definition get_meta_dict (self : oid) : M (list (string * pyvalue)) :=
  s ← load self; collect_meta self (meta_attrs s) [].

Fixpoint collect_columns (self : oid) (attrs : list string)
    (data : list (string * ndarray)) : M (list (string * ndarray)) :=
  match attrs with
  | [] => mret data
  | attr :: attrs =>
      v ← getattr self attr;
      match v with
      | VArr vals => collect_columns self attrs (dict_set attr vals data)
      | _ => raise (OutOfModel "zero-dimensional column")
      end
  end.

(** [Table(data)] copies every column and checks that they have one
    length. *)
Fixpoint table_of_data (n : nat) (data : list (string * ndarray))
    : M (list (string * ndarray)) :=
  match data with
  | [] => mret []
  | (name, vals) :: data =>
      if Nat.eqb (plen (elems vals)) n
      then b ← fresh_buf;
           cols ← table_of_data n data;
           mret ((name, NdArray b (elems vals)) :: cols)
      else raise (ValueError "Inconsistent data column lengths")
  end.

(** [to_astropy_table(self)], with [no_longdouble=False]. *)
Definition to_astropy_table (self : oid) : M Table :=
  s ← load self;
  let array_attrs :=
    (array_attrs s ++ [main_array_attr] ++ internal_array_attrs s)%list in
  data ← collect_columns self array_attrs [];
  cols ← table_of_data (table_len (MkTable data [])) data;
  meta_dict ← get_meta_dict self;
  mret (MkTable cols meta_dict).

(** The first loop of [from_astropy_table]: it stops at the first column
    whose lower-cased name is the main attribute. *)
Fixpoint set_main_column (cls : oid) (cols : list (string * ndarray)) : M unit :=
  match cols with
  | [] => mret ()
  | (attr, col) :: cols =>
      if String.eqb (lower attr) main_array_attr
      then mainarray ← new_array (elems col);
           setattr cls main_array_attr mainarray
      else set_main_column cls cols
  end.

Definition from_astropy_table (ts : Table) : M oid :=
  cls ← new_instance;
  if Nat.eqb (table_len ts) 0 then mret cls
  else
    set_main_column cls (columns ts);;
    for_each (columns ts)
      (λ '(attr, col),
         if String.eqb (lower attr) main_array_attr then mret ()
         else a ← new_array (elems col); setattr cls (lower attr) a);;
    for_each (meta ts) (λ '(key, val), setattr cls (lower key) val);;
    mret cls.

Definition apply_mask (self : oid) (mask : index) (inplace : bool)
    (filtered_attrs : option (list string)) : M oid :=
  s ← load self;
  let all_attrs := (internal_array_attrs s ++ array_attrs s)%list in
  let filtered_attrs := default all_attrs filtered_attrs in
  new_ts ← (if inplace then mret self
            else new_ts ← new_instance;
                 s ← load self;
                 for_each (meta_attrs s)
                   (λ attr, v ← getattr self attr; c ← deepcopy v;
                            setattr new_ts attr c);;
                 mret new_ts);
  (* [hasattr(self, "_time")] holds: the class defines [_time]. *)
  t ← getattr self main_array_attr;
  t ← index_array t mask;
  t ← deepcopy t;
  setattr new_ts ("_" ++ main_array_attr) t;;
  for_each all_attrs
    (λ attr,
       if negb (mem attr filtered_attrs) then setattr new_ts attr VNone
       else v ← getattr self attr; v ← index_array v mask; v ← deepcopy v;
            setattr new_ts attr v);;
  mret new_ts.

Definition _operation_with_other_obj (self : oid) (other : operand)
    (operation : Q → Q → Q) (operated_attrs error_attrs : option (list string))
    (error_operation : option (Q → Q → Q)) (inplace : bool) : M oid :=
  s ← load self;
  let operated_attrs := default (_default_operated_attrs s) operated_attrs in
  let error_attrs := default (_default_error_attrs s) error_attrs in
  match other with
  | PVal _ => raise (TypeError "objects can only be operated with other objects of the same type")
  | PObj other =>
      this_time ← getattr self main_array_attr;
      other_time ← getattr other main_array_attr;
      if negb (array_equal this_time other_time)
      then raise (ValueError "The values of time are different in the two objects.")
      else
        ts_new ← (if inplace then mret self else new_instance);
        setattr ts_new main_array_attr this_time;;
        s ← load self;
        for_each (meta_attrs s)
          (λ attr, v ← getattr self attr; c ← deepcopy v; setattr ts_new attr c);;
        for_each operated_attrs
          (λ attr, a ← getattr self attr; b ← getattr other attr;
                   r ← np_binop operation a b; setattr ts_new attr r);;
        for_each error_attrs
          (λ attr, a ← getattr self attr; b ← getattr other attr;
                   match error_operation with
                   | Some f => r ← np_binop f a b; setattr ts_new attr r
                   | None => raise (TypeError "'NoneType' object is not callable")
                   end);;
        mret ts_new
  end.

(** The methods below call [self._operation_with_other_obj], which a
    subclass may override: [dispatch] is the method found on [self]. *)
Section dispatch.
Variable dispatch : operation_method.

Definition add (self : oid) (other : operand) (operated_attrs error_attrs : option (list string))
    (error_operation : option (Q → Q → Q)) (inplace : bool) : M oid :=
  dispatch self other qadd operated_attrs error_attrs error_operation (Some inplace).

Definition __add__ (self : oid) (other : operand) : M oid :=
  dispatch self other qadd None None (Some sqsum) None.

Definition __iadd__ (self : oid) (other : operand) : M oid :=
  dispatch self other qadd None None (Some sqsum) (Some true).

Definition sub (self : oid) (other : operand) (operated_attrs error_attrs : option (list string))
    (error_operation : option (Q → Q → Q)) (inplace : bool) : M oid :=
  dispatch self other qsub operated_attrs error_attrs error_operation (Some inplace).

Definition __sub__ (self : oid) (other : operand) : M oid :=
  dispatch self other qsub None None (Some sqsum) None.

Definition __isub__ (self : oid) (other : operand) : M oid :=
  dispatch self other qsub None None (Some sqsum) (Some true).

End dispatch.

(** The method as [StingrayObject] defines it: [inplace] defaults to
    [False]. *)
Definition method_operation_with_other_obj : operation_method :=
  λ self other operation operated_attrs error_attrs error_operation inplace,
    _operation_with_other_obj self other operation operated_attrs error_attrs
      error_operation (default false inplace).

(** [len(self)]: [np.size] of the main array. *)
Definition __len__ (self : oid) : M nat :=
  t ← getattr self main_array_attr; mret (size t).

(** What [__getitem__] is called with. *)
Inductive subscript_arg :=
| SInt (i : Z)
| SSlice (start stop step : option Z)
| SOther.

(** Modelled from the spec: [assign_value_if_none] lives in the [utils]
    module, which is not under src/; it is the value unless that is
    [None], and the default otherwise. *)
Definition assign_value_if_none {A} (value : option A) (dflt : A) : A :=
  default dflt value.

Definition __getitem__ (self : oid) (index : subscript_arg) : M oid :=
  '(start, stop, step) ←
    match index with
    | SInt i => mret (i, i + 1, 1)%Z
    | SSlice start stop step =>
        n ← __len__ self;
        mret (assign_value_if_none start 0%Z,
              assign_value_if_none stop (Z.of_nat n),
              assign_value_if_none step 1%Z)
    | SOther => raise (IndexError "The index must be either an integer or a slice object !")
    end;
  new_ts ← new_instance;
  s ← load self;
  for_each (meta_attrs s)
    (λ attr, v ← getattr self attr; c ← deepcopy v; setattr new_ts attr c);;
  s ← load self;
  for_each (array_attrs s ++ [main_array_attr])%list
    (λ attr, v ← getattr self attr;
             v ← subscript v (Some start) (Some stop) (Some step);
             setattr new_ts attr v);;
  mret new_ts.

End with_sqrt.
End StingrayObject.

(** ** The GTI helpers

    [check_gtis], [create_gti_mask] and [cross_two_gtis] are imported from
    the [gti] module, which is not under src/.  The methods below take them
    through this interface. *)
Class GtiModule := {
  (** raises on an invalid GTI list *)
  check_gtis : pyvalue → option exn;
  (** [create_gti_mask(time, gtis, dt=dt)] *)
  create_gti_mask : pyvalue → pyvalue → pyvalue → exn + list bool;
  cross_two_gtis : pyvalue → pyvalue → exn + list (Q * Q)
}.

Module SpecGti.

Definition rows_of (gti : pyvalue) : exn + list (Q * Q) :=
  match gti with
  | VArr a =>
      match elems a with
      | A2 rows => inr rows
      | A1 _ => inl (ValueError "a GTI list has shape (n, 2)")
      end
  | _ => inl (ValueError "a GTI list has shape (n, 2)")
  end.

Fixpoint sorted_disjoint (rows : list (Q * Q)) : bool :=
  match rows with
  | [] => true
  | g :: rest =>
      qlt g.1 g.2
      && match rest with
         | [] => true
         | g' :: _ => Qle_bool g.2 g'.1
         end
      && sorted_disjoint rest
  end.

(** Modelled from the spec: [check_gtis] of the [gti] module, not under
    src/ ("validate(intervals): fails with InvalidIntervals if any
    interval is unsorted, overlapping, or has start >= end"; intervals
    that touch at a boundary do not overlap). *)
Definition check_gtis (gti : pyvalue) : option exn :=
  match rows_of gti with
  | inl e => Some e
  | inr rows =>
      if sorted_disjoint rows then None else Some (ValueError "InvalidIntervals")
  end.

Definition in_interval (spacing t : Q) (g : Q * Q) : bool :=
  if qlt 0 spacing
  then Qle_bool g.1 (qsub t (qhalf spacing)) && Qle_bool (qadd t (qhalf spacing)) g.2
  else Qle_bool g.1 t && qlt t g.2.

(** Modelled from the spec: [create_gti_mask] of the [gti] module, not
    under src/ ("mask(time, intervals, spacing): returns a boolean vector,
    one entry per time sample, true iff the sample (treated as a point, or
    as [t - spacing/2, t + spacing/2] when spacing > 0 is semantically
    relevant to the boundary) falls within some interval", the end of an
    interval being excluded for a point).  A spacing that is not a
    positive number leaves the samples as points. *)
Definition create_gti_mask (time gti dt : pyvalue) : exn + list bool :=
  match time, rows_of gti with
  | VArr a, inr rows =>
      match elems a with
      | A1 ts =>
          let spacing := match dt with VNum q => q | _ => 0%Q end in
          inr (List.map (λ t, existsb (in_interval spacing t) rows) ts)
      | A2 _ => inl (ValueError "time stamps are one-dimensional")
      end
  | _, inl e => inl e
  | _, _ => inl (ValueError "no time stamps")
  end.

Definition meet (g h : Q * Q) : list (Q * Q) :=
  let lo := if Qle_bool g.1 h.1 then h.1 else g.1 in
  let hi := if Qle_bool g.2 h.2 then g.2 else h.2 in
  if qlt lo hi then [(lo, hi)] else [].

(** Modelled from the spec: [cross_two_gtis] of the [gti] module, not
    under src/ ("intersect(a, b): set intersection of two interval lists;
    output is the minimal interval list covering exactly the overlap"). *)
Definition cross_two_gtis (gti0 gti1 : pyvalue) : exn + list (Q * Q) :=
  match rows_of gti0, rows_of gti1 with
  | inr a, inr b => inr (flat_map (λ g, flat_map (meet g) b) a)
  | inl e, _ | _, inl e => inl e
  end.

Definition spec_gti : GtiModule :=
  Build_GtiModule check_gtis create_gti_mask cross_two_gtis.

End SpecGti.

(** ** Class [StingrayTimeseries] *)

(** What [join] is called with: one object or a list of them. *)
Inductive join_arg :=
| One (other : operand)
| Many (others : list operand).

Module StingrayTimeseries.
Import AttributeClassifier TimeseriesFields.

Section methods.
Variable np_sqrt : Q → Q.
Context {gti_module : GtiModule}.
(** [rebin_data(x, y, dx_new, yerr, method)] of the [utils] module, not
    under src/: the binned abscissae, values and errors. *)
Variable rebin_data :
  list Q → list Q → Q → option (list Q) → string → exn + (list Q * list Q * list Q).

Definition __eq__ (self : oid) (other_ts : operand) : M bool :=
  StingrayObject.__eq__ self other_ts.

Definition apply_gtis (self : oid) (new_gti : pyvalue) (inplace : bool) : M oid :=
  new_gti ← (if is_none new_gti then getattr self "gti" else mret new_gti);
  match check_gtis new_gti with
  | Some e => raise e
  | None =>
      time ← getattr self "time";
      dt ← getattr self "dt";
      good ← lift (create_gti_mask time new_gti dt);
      newts ← StingrayObject.apply_mask self (IBool good) inplace None;
      (if inplace then setattr newts "gti" new_gti else mret ());;
      mret newts
  end.

(** [copy.deepcopy(self)] *)
Fixpoint deepcopy_items (items : list (string * pyvalue)) : M (gmap string pyvalue) :=
  match items with
  | [] => mret ∅
  | (k, v) :: items => c ← deepcopy v; d ← deepcopy_items items; mret (<[k := c]> d)
  end.

Definition deepcopy_array (a : option ndarray) : M (option ndarray) :=
  match a with
  | Some a => b ← fresh_buf; mret (Some (NdArray b (elems a)))
  | None => mret None
  end.

Definition deepcopy_obj (self : oid) : M oid :=
  o ← load self;
  t ← deepcopy_array (_time o);
  g ← deepcopy_array (_gti o);
  d ← deepcopy_items (map_to_list (__dict__ o));
  alloc (Obj t g d).

Definition shift (self : oid) (time_shift : Q) (inplace : bool) : M oid :=
  ts ← (if inplace then mret self else deepcopy_obj self);
  t ← getattr ts "time";
  t ← np_binop qadd t (VNum time_shift);
  setattr ts "time" t;;
  o ← load ts;
  match _gti o with
  | Some g =>
      g ← np_binop qadd (VArr g) (VNum time_shift);
      setattr_plain ts "_gti" g;;
      mret ts
  | None => mret ts
  end.

Definition change_mjdref (self : oid) (new_mjdref : pyvalue) (inplace : bool) : M oid :=
  mjdref ← getattr self "mjdref";
  old ← lift (as_number mjdref);
  new ← lift (as_number new_mjdref);
  ts ← shift self (qmul (qsub old new) 86400) inplace;
  setattr ts "mjdref" new_mjdref;;
  mret ts.

(** [a != b] as the condition of an [if]. *)
Definition py_ne (a b : pyvalue) : exn + bool :=
  match a, b with
  | VArr _, _ | _, VArr _ => inl (OutOfModel "truth value of an array")
  | VNone, VNone => inr false
  | VCallable f, VCallable g => inr (negb (Nat.eqb f g))
  | _, _ => inr (negb (scalar_eq a b))
  end.

(** Python's default recursion limit. *)
Definition recursion_limit : nat := 1000.

(** The method calls itself on the GTI-filtered operands; [depth] is the
    number of frames left before Python raises [RecursionError]. *)
Fixpoint _operation_with_other_obj (depth : nat) (self : oid) (other : operand)
    (operation : Q → Q → Q) (operated_attrs error_attrs : option (list string))
    (error_operation : option (Q → Q → Q)) : M oid :=
  match depth with
  | 0 => raise RecursionError
  | S depth =>
      match other with
      | PVal _ => raise (AttributeError "mjdref")
      | PObj other =>
          self_mjdref ← getattr self "mjdref";
          other_mjdref ← getattr other "mjdref";
          differ ← lift (py_ne self_mjdref other_mjdref);
          other ← (if differ : bool
                   then warn "MJDref is different in the two time series";;
                        self_mjdref ← getattr self "mjdref";
                        change_mjdref other self_mjdref false
                   else mret other);
          self_gti ← getattr self "gti";
          other_gti ← getattr other "gti";
          if negb (array_equal self_gti other_gti)
          then
            warn "The good time intervals in the two time series are different. Data outside the common GTIs will be discarded.";;
            self_gti ← getattr self "gti";
            other_gti ← getattr other "gti";
            rows ← lift (cross_two_gtis self_gti other_gti);
            common_gti ← new_array (A2 rows);
            masked_self ← apply_gtis self common_gti true;
            masked_other ← apply_gtis other common_gti true;
            _operation_with_other_obj depth masked_self (PObj masked_other)
              operation operated_attrs error_attrs error_operation
          else
            StingrayObject._operation_with_other_obj self (PObj other) operation
              operated_attrs error_attrs error_operation false
      end
  end.

(** The override takes no [inplace] keyword. *)
Definition method_operation_with_other_obj : operation_method :=
  λ self other operation operated_attrs error_attrs error_operation inplace,
    match inplace with
    | Some _ =>
        raise (TypeError "_operation_with_other_obj() got an unexpected keyword argument 'inplace'")
    | None =>
        _operation_with_other_obj recursion_limit self other operation
          operated_attrs error_attrs error_operation
    end.

Definition __add__ (self : oid) (other : operand) : M oid :=
  StingrayObject.__add__ np_sqrt method_operation_with_other_obj self other.

Definition __sub__ (self : oid) (other : operand) : M oid :=
  StingrayObject.__sub__ np_sqrt method_operation_with_other_obj self other.

(** The inherited named methods and in-place operators. *)
Definition add := StingrayObject.add method_operation_with_other_obj.
Definition sub := StingrayObject.sub method_operation_with_other_obj.
Definition __iadd__ := StingrayObject.__iadd__ np_sqrt method_operation_with_other_obj.
Definition __isub__ := StingrayObject.__isub__ np_sqrt method_operation_with_other_obj.


(** [np.asarray([[lo, hi]])] around the first and last entries of [time],
    widened by [delta_start] and [delta_stop]. *)
Definition span (time : pyvalue) (delta_start delta_stop : Q) : M pyvalue :=
  t0 ← lift (item false time) ≫= (lift ∘ as_number);
  t1 ← lift (item true time) ≫= (lift ∘ as_number);
  new_array (A2 [(qsub t0 delta_start, qadd t1 delta_stop)]).

Definition list_of (v : pyvalue) : M (list Q) :=
  match v with
  | VArr a =>
      match elems a with
      | A1 xs => mret xs
      | A2 _ => raise (OutOfModel "two-dimensional array")
      end
  | _ => raise (TypeError "object is not iterable")
  end.

Definition __getitem__ (self : oid) (index : StingrayObject.subscript_arg) : M oid :=
  new_ts ← StingrayObject.__getitem__ self index;
  let step := match index with
              | StingrayObject.SSlice _ _ step =>
                  StingrayObject.assign_value_if_none step 1%Z
              | _ => 1%Z
              end in
  dt ← getattr self "dt";
  '(delta_gti_start, delta_gti_stop) ←
    (if isscalar dt
     then d ← lift (as_number dt); mret (qmul d (1 # 2), qmul d (1 # 2))
     else dt ← getattr new_ts "dt";
          d0 ← lift (item false dt) ≫= (lift ∘ as_number);
          dt ← getattr new_ts "dt";
          d1 ← lift (item true dt) ≫= (lift ∘ as_number);
          mret (qmul d0 (1 # 2), qmul d1 (1 # 2)));
  time ← getattr new_ts "time";
  new_gti ← span time delta_gti_start delta_gti_stop;
  new_gti ← (if (1 <? step)%Z && qlt 0 delta_gti_start
             then time ← getattr new_ts "time";
                  dt ← getattr new_ts "dt";
                  half ← np_binop (λ a b, Qred (a / b)) dt (VNum 2);
                  lo ← np_binop qsub time half;
                  hi ← np_binop qadd time half;
                  lo ← list_of lo; hi ← list_of hi;
                  new_gt1 ← new_array (A2 (zip lo hi));
                  rows ← lift (cross_two_gtis new_gti new_gt1);
                  new_array (A2 rows)
             else mret new_gti);
  self_gti ← getattr self "gti";
  rows ← lift (cross_two_gtis self_gti new_gti);
  new_gti ← new_array (A2 rows);
  setattr new_ts "gti" new_gti;;
  mret new_ts.

Definition _truncate_by_index (self : oid) (start stop : option Z) : M oid :=
  new_ts ← StingrayObject.apply_mask self (ISlice start stop None) false None;
  dt ← getattr new_ts "dt";
  self_dt ← getattr self "dt";
  '(dtstart, dtstop) ←
    (if is_iterable self_dt
     then d0 ← lift (item false self_dt);
          self_dt ← getattr self "dt";
          d1 ← lift (item true self_dt);
          mret (d0, d1)
     else mret (dt, dt));
  self_gti ← getattr self "gti";
  time ← getattr new_ts "time";
  t0 ← lift (item false time) ≫= (lift ∘ as_number);
  d0 ← lift (as_number dtstart);
  time ← getattr new_ts "time";
  t1 ← lift (item true time) ≫= (lift ∘ as_number);
  d1 ← lift (as_number dtstop);
  window ← new_array (A2 [(qsub t0 (qmul (1 # 2) d0), qadd t1 (qmul (1 # 2) d1))]);
  rows ← lift (cross_two_gtis self_gti window);
  gti ← new_array (A2 rows);
  setattr new_ts "gti" gti;;
  mret new_ts.

(** [a.searchsorted(v)]: NumPy's binary search for the leftmost insertion
    point. *)
Fixpoint binsearch (steps : nat) (a : list Q) (key : Q) (min_idx max_idx : nat) : nat :=
  match steps with
  | 0 => min_idx
  | S steps =>
      if (min_idx <? max_idx)%nat
      then let mid := (min_idx + (max_idx - min_idx) / 2)%nat in
           match a !! mid with
           | Some x =>
               if qlt x key then binsearch steps a key (S mid) max_idx
               else binsearch steps a key min_idx mid
           | None => min_idx
           end
      else min_idx
  end.

Definition searchsorted (time : pyvalue) (v : Q) : M Z :=
  match time with
  | VArr a =>
      match elems a with
      | A1 ts => mret (Z.of_nat (binsearch (S (length ts)) ts v 0 (length ts)))
      | A2 _ => raise (OutOfModel "two-dimensional time")
      end
  | _ => raise (AttributeError "searchsorted")
  end.

Definition _truncate_by_time (self : oid) (start : Q) (stop : option Q) : M oid :=
  match stop with
  | Some stop' =>
      if qlt stop' start then raise (ValueError "start time must be less than stop time!")
      else
        start ← (if negb (Qeq_bool start 0)
                 then time ← getattr self "time"; searchsorted time start
                 else mret 0%Z);
        time ← getattr self "time";
        stop ← searchsorted time stop';
        _truncate_by_index self (Some start) (Some stop)
  | None =>
      start ← (if negb (Qeq_bool start 0)
               then time ← getattr self "time"; searchsorted time start
               else mret 0%Z);
      _truncate_by_index self (Some start) None
  end.

(** An index given as a number: a slice bound has to be an integer. *)
Definition as_index (q : Q) : M Z :=
  if Qeq_bool q (inject_Z (Qnum q / Z.pos (Qden q))) then mret (Qnum q / Z.pos (Qden q))%Z
  else raise (OutOfModel "slice indices must be integers").

Definition first_bound (gti : pyvalue) (at_end : bool) : M Q :=
  match gti with
  | VArr a =>
      match elems a with
      | A2 rows =>
          match pick at_end rows with
          | Some g => mret (if at_end then g.2 else g.1)
          | None => raise (IndexError "index 0 is out of bounds")
          end
      | A1 _ => raise (IndexError "too many indices for array")
      end
  | _ => raise (TypeError "object is not subscriptable")
  end.

Definition truncate (self : oid) (start : Q) (stop : option Q) (method : string) : M oid :=
  if negb (mem (lower method) ["index"; "time"])
  then raise (ValueError ("Unknown method type " ++ method ++ "."))
  else
    new_ts ← (if String.eqb (lower method) "index"
              then start ← as_index start;
                   stop ← match stop with
                          | Some s => s ← as_index s; mret (Some s)
                          | None => mret None
                          end;
                   _truncate_by_index self (Some start) stop
              else _truncate_by_time self start stop);
    gti ← getattr new_ts "gti";
    tstart ← first_bound gti false;
    setattr new_ts "tstart" (VNum tstart);;
    gti ← getattr new_ts "gti";
    stop_ ← first_bound gti true;
    gti ← getattr new_ts "gti";
    start_ ← first_bound gti false;
    setattr new_ts "tseg" (VNum (qsub stop_ start_));;
    mret new_ts.

(** *** Joining *)

(** [getattr(obj, "time", None) is None or np.size(obj.time) == 0] *)
Definition is_empty (obj : oid) : M bool :=
  t ← getattr_default obj "time" VNone;
  if is_none t then mret true
  else t ← getattr obj "time"; mret (Nat.eqb (size t) 0).

(** [others.remove(obj)]: the first item that is [obj] or compares equal
    to it goes.  An item that is not an object defers to [obj.__eq__]. *)
Fixpoint list_remove (others : list operand) (obj : oid) : M (list operand) :=
  match others with
  | [] => raise (ValueError "list.remove(x): x not in list")
  | item :: rest =>
      found ← match item with
              | PObj i => if Nat.eqb i obj then mret true else __eq__ i (PObj obj)
              | PVal _ => __eq__ obj item
              end;
      if found : bool then mret rest
      else rest ← list_remove rest obj; mret (item :: rest)
  end.

(** The loop [for obj in others: ...] that checks the inputs and removes
    the empty ones from the very list it walks.  [i] is the position of
    the iterator; a list of [n] items is left after at most [n] steps, so
    [steps] never runs out when it starts at the length of the list. *)
Fixpoint drop_empty (steps i : nat) (others : list operand) : M (list operand) :=
  match steps with
  | 0 => mret others
  | S steps =>
      match others !! i with
      | None => mret others
      | Some (PVal _) =>
          raise (TypeError "objects can only be merged with other objects of the same type")
      | Some (PObj obj) =>
          empty ← is_empty obj;
          if empty : bool
          then warn "One of the time series you are joining is empty.";;
               others ← list_remove others obj;
               drop_empty steps (S i) others
          else drop_empty steps (S i) others
      end
  end.

(** The inputs of the merge: the start of [_join_timeseries], up to the
    test [len(others) == 0].  It returns the copy of [self] that the
    method returns when no input is left, or the list [others] that the
    rest of the method merges with [self]. *)
Definition _join_timeseries_inputs (self : oid) (others : join_arg)
    : M (oid + list operand) :=
  new_ts ← new_instance;
  let others :=
    match others with
    | Many l => l
    | One (PVal (VArr a)) =>
        match elems a with
        | A1 xs => PVal ∘ VNum <$> xs
        | A2 rows => (λ _, PVal VNone) <$> rows
        end
    | One other => [other]
    end in
  others ← drop_empty (length others) 0 others;
  if Nat.eqb (length others) 0
  then c ← deepcopy_obj self; mret (inl c)
  else mret (inr others).

(** *** Rebinning *)







End methods.
End StingrayTimeseries.

(** ** Further methods of the two classes *)

Module FurtherMethods.
Import AttributeClassifier TimeseriesFields.

(** The read-only property [n] of [StingrayTimeseries]. *)
Definition n (self : oid) : M nat :=
  t ← getattr_default self main_array_attr VNone;
  if is_none t then mret 0%nat
  else t ← getattr self main_array_attr;
       match shape0 t with
       | Some k => mret k
       | None => raise (IndexError "tuple index out of range")
       end.

Definition negative_payload (p : payload) : payload :=
  match p with
  | A1 xs => A1 (List.map qneg xs)
  | A2 rows => A2 (List.map (λ g, (qneg g.1, qneg g.2)) rows)
  end.

(** [-np.asarray(v)] *)
Definition negative (v : pyvalue) : M pyvalue :=
  match v with
  | VArr a => new_array (negative_payload (elems a))
  | VNum q => mret (VNum (qneg q))
  | VBool _ => raise (TypeError "The numpy boolean negative, the `-` operator, is not supported")
  | _ => raise (TypeError "bad operand type for unary -")
  end.

(** [StingrayObject.__neg__] *)
Definition __neg__ (self : oid) : M oid :=
  ts_new ← StingrayTimeseries.deepcopy_obj self;
  s ← load self;
  for_each (_default_operated_attrs s)
    (λ attr, v ← getattr self attr; r ← negative v; setattr ts_new attr r);;
  mret ts_new.

End FurtherMethods.

(** ** The binning helper *)

Module SpecUtils.

Section with_sqrt.
Variable np_sqrt : Q → Q.





End with_sqrt.
End SpecUtils.

(** ** Reading the store *)

Definition empty_world : world := World ∅ 0 0 [].

(** The array an attribute of object [o] holds in [w], if any; [time] and
    [gti] are read from their private fields, without deriving anything. *)
Definition array_of (w : world) (o : oid) (name : string) : option ndarray :=
  ob ← objs w !! o;
  if String.eqb name "time" then _time ob
  else if String.eqb name "gti" then _gti ob
  else match lookup_attr ob name with
       | Some (VArr a) => Some a
       | _ => None
       end.

Definition data_of (w : world) (o : oid) (name : string) : option payload :=
  elems <$> array_of w o name.

Definition buf_of (w : world) (o : oid) (name : string) : option loc :=
  buf <$> array_of w o name.

(** The names in the instance dictionary of [o]. *)
Definition names_of (w : world) (o : oid) : list string :=
  match objs w !! o with
  | Some ob => merge_sort String.leb (map_to_list (__dict__ ob)).*1
  | None => []
  end.

(** Every buffer an object reads from. *)
Definition bufs_of_value (v : pyvalue) : list loc :=
  match v with VArr a => [buf a] | _ => [] end.

Definition bufs_of (ob : obj) : list loc :=
  (bufs_of_value (of_option (_time ob)) ++ bufs_of_value (of_option (_gti ob))
   ++ flat_map (λ kv, bufs_of_value kv.2) (map_to_list (__dict__ ob)))%list.


(** The store hands out identities in increasing order: every object and
    every buffer in use is older than the next one. *)
Definition wf_world (w : world) : Prop :=
  ∀ o ob, objs w !! o = Some ob →
    (o < next_oid w)%nat ∧ ∀ b, b ∈ bufs_of ob → (b < next_buf w)%nat.

Definition is_ValueError (e : exn) : Prop :=
  match e with ValueError _ => True | _ => False end.

(** A stand-in for [np.sqrt] where a run has to name one: the integer part
    of the square root, exact on the perfect squares. *)
Definition sqrt_floor (q : Q) : Q := inject_Z (Z.sqrt (Qfloor q)).

(** ** Scenarios *)

Module Scenarios.
Import TimeseriesFields.

Definition ints (l : list Z) : list Q := List.map inject_Z l.

(** [StingrayTimeseries(time, array_attrs=dict(counts=counts), gti=gti, dt=dt)] *)
Definition timeseries (time counts : list Z) (gti : option (list (Q * Q))) (dt : Q)
    : M oid :=
  __init__ (Some (ints time)) [("counts", ints counts)] (VNum 0) (VStr "") gti
    (VBool false) VNone VNone VNone [("dt", VNum dt)].

(** [StingrayTimeseries(time, dt=dt)] *)
Definition bare (time : list Z) (gti : option (list (Q * Q))) (dt : Q) : M oid :=
  __init__ (Some (ints time)) [] (VNum 0) (VStr "") gti
    (VBool false) VNone VNone VNone [("dt", VNum dt)].

Section runs.
Variable np_sqrt : Q → Q.
#[local] Existing Instance SpecGti.spec_gti.

(** Scenario 1: [ts1 + ts2] with GTIs [[0, 20]] and [[0, 25]]. *)
Definition add_scenario : M (oid * oid * oid) :=
  ts1 ← timeseries [5; 10; 15]%Z [300; 100; 400]%Z (Some [(0, 20)]%Q) 5;
  ts2 ← timeseries [5; 10; 15]%Z [600; 1200; 800]%Z (Some [(0, 25)]%Q) 5;
  ts ← StingrayTimeseries.__add__ np_sqrt ts1 (PObj ts2);
  mret (ts1, ts2, ts).

(** Two series whose time stamps differ outside the common GTI only. *)
Definition different_times : M (oid * oid) :=
  x ← timeseries [1; 2; 3]%Z [10; 20; 30]%Z (Some [(1 # 2, 5 # 2)]%Q) 1;
  y ← timeseries [1; 2; 4]%Z [1; 2; 4]%Z (Some [(1 # 2, 5 # 2); (7 # 2, 9 # 2)]%Q) 1;
  mret (x, y).

(** Two series with one GTI and different time stamps. *)
Definition different_times_same_gti : M (oid * oid) :=
  x ← timeseries [1; 2; 3]%Z [10; 20; 30]%Z (Some [(1 # 2, 9 # 2)]%Q) 1;
  y ← timeseries [1; 2; 4]%Z [1; 2; 4]%Z (Some [(1 # 2, 9 # 2)]%Q) 1;
  mret (x, y).


Definition one_to_nine : M oid :=
  timeseries [1; 2; 3; 4; 5; 6; 7; 8; 9]%Z [10; 20; 30; 40; 50; 60; 70; 80; 90]%Z None 1.

(** Scenario 3 *)
Definition truncate_by_index : M oid :=
  ts ← one_to_nine; StingrayTimeseries.truncate ts 2 (Some 8%Q) "index".

Definition truncate_by_time : M oid :=
  ts ← one_to_nine; StingrayTimeseries.truncate ts 6 None "time".

(** The series 1..9 and the GTI list [[0.5, 2.5]] as an array. *)
Definition one_to_nine_and_gti : M (oid * pyvalue) :=
  ts ← one_to_nine;
  g ← new_array (A2 [(1 # 2, 5 # 2)]%Q);
  mret (ts, g).

(** The series 1..9 and two empty ones, [StingrayTimeseries()]. *)
Definition one_to_nine_and_two_empty : M (oid * oid * oid) :=
  ts ← one_to_nine;
  e1 ← new_instance;
  e2 ← new_instance;
  mret (ts, e1, e2).


(** [StingrayTimeseries(time, array_attrs=dict(Counts=counts), dt=1)] and
    its trip through a table. *)
Definition capitalised : M oid :=
  __init__ (Some (ints [1; 2; 3]%Z)) [("Counts", ints [10; 20; 30]%Z)] (VNum 0) (VStr "")
    None (VBool false) VNone VNone VNone [("dt", VNum 1)].

Definition round_trip (make : M oid) : M (oid * oid * bool) :=
  x ← make;
  ts ← StingrayObject.to_astropy_table x;
  y ← StingrayObject.from_astropy_table ts;
  same ← StingrayTimeseries.__eq__ y (PObj x);
  mret (x, y, same).

(** [StingrayTimeseries([1, 2, 3], dt=1, _tag=3)] *)
Definition tagged : M oid :=
  __init__ (Some (ints [1; 2; 3]%Z)) [] (VNum 0) (VStr "") None
    (VBool false) VNone VNone VNone [("dt", VNum 1); ("_tag", VNum 3)].

End runs.
End Scenarios.

(** What a run returned and the store it left. *)
Definition value_of {A} (r : outcome A) : option A :=
  match r with Ok a _ => Some a | Raise _ _ => None end.

Definition error_of {A} (r : outcome A) : option exn :=
  match r with Ok _ _ => None | Raise e _ => Some e end.

Definition world_of {A} (r : outcome A) : world :=
  match r with Ok _ w | Raise _ w => w end.

(** ** Specifications of runs *)

(** [m] started in [w] returns a value and a store that satisfy [Q]. *)
Definition returns {A} (m : M A) (w : world) (Q : A → world → Prop) : Prop :=
  match m w with
  | Ok a w' => Q a w'
  | Raise _ _ => False
  end.

(** [m] started in [w] raises an exception that satisfies [P]. *)
Definition raises {A} (m : M A) (w : world) (P : exn → Prop) : Prop :=
  match m w with
  | Ok _ _ => False
  | Raise e _ => P e
  end.

(** The store [w] with [ob] at [o]. *)
Definition with_obj (w : world) (o : oid) (ob : obj) : world :=
  World (<[o := ob]> (objs w)) (next_oid w) (next_buf w) (warnings w).

(** The names that [getattr] and [setattr] treat as dictionary entries. *)
Definition plain_name (name : string) : bool :=
  negb (mem name ["time"; "gti"; "mask"; "n"; "main_array_attr"; "not_array_attr";
                  "_time"; "_gti"]).

(** The object that [StingrayTimeseries()] builds. *)
Definition fresh_obj : obj :=
  Obj None None
    (<["dt" := VNum 0]> (<["high_precision" := VBool false]> (<["_mask" := VNone]>
     (<["timesys" := VNone]> (<["timeref" := VNone]> (<["ephem" := VNone]>
      (<["mjdref" := VNum 0]> (<["notes" := VStr ""]> ∅)))))))).


(** The store [w] after buffers up to [n] have been handed out. *)
Definition with_buf (w : world) (n : loc) : world :=
  World (objs w) (next_oid w) n (warnings w).



(** The value the [gti] property has for an object: the stored list, or
    the interval derived from its time stamps. *)
Definition gti_payload (ob : obj) : option payload :=
  match _gti ob, _time ob with
  | Some g, _ => Some (elems g)
  | None, Some t =>
      match TimeseriesFields.derive_gti ob t with
      | inr p => Some p
      | inl _ => None
      end
  | None, None => None
  end.

(** [ob'] is [ob], except that the GTI derived from its time stamps may have
    been stored in [_gti]. *)
Definition same_but_gti_cache (ob ob' : obj) : Prop :=
  _time ob' = _time ob ∧ __dict__ ob' = __dict__ ob
  ∧ (_gti ob' = _gti ob
     ∨ _gti ob = None ∧ ∃ g, _gti ob' = Some g ∧ gti_payload ob = Some (elems g)).


(** [w'] differs from [w] in the object [o] and in the buffers handed out,
    at most. *)
Definition only_changes (o : oid) (w w' : world) : Prop :=
  (∀ o', o' ≠ o → objs w' !! o' = objs w !! o')
  ∧ next_oid w' = next_oid w ∧ warnings w' = warnings w
  ∧ (next_buf w ≤ next_buf w')%nat.


Definition is_AttributeError (e : exn) : Prop :=
  match e with AttributeError _ => True | _ => False end.




(** * Properties *)

(** ** Scenarios, by evaluation *)

Section scenarios.
Variable np_sqrt : Q → Q.
#[local] Existing Instance SpecGti.spec_gti.
Import Scenarios.

(** C3 — scenario 1: adding the series with counts [300, 100, 400] and GTI
    [[0, 20]] to the one with counts [600, 1200, 800] and GTI [[0, 25]]
    (same time stamps [5, 10, 15], dt = 5) returns a series with counts
    [900, 1300, 1200], no attribute ending in [_err] and GTI [[0, 20]], and
    the only warning emitted is the one about the differing GTIs. *)
Theorem add_scenario_result :
  let r := add_scenario np_sqrt empty_world in
  ∃ ts1 ts2 ts,
    value_of r = Some (ts1, ts2, ts)
    ∧ data_of (world_of r) ts "counts" = Some (A1 (ints [900; 1300; 1200]%Z))
    ∧ List.filter (endswith "_err") (names_of (world_of r) ts) = []
    ∧ warnings (world_of r) =
        ["The good time intervals in the two time series are different. Data outside the common GTIs will be discarded."]
    ∧ data_of (world_of r) ts "gti" = Some (A2 [(0, 20)]%Q).
Proof.
  exists 0, 1, 2. repeat split; vm_compute; reflexivity.
Qed.

(** C8 — scenario 3: on the series with time 1..9 and counts 10..90,
    [truncate(start=2, stop=8)] returns time [3..8] with counts [30..80],
    and [truncate(start=6, method="time")] returns time [6..9] with counts
    [60..90]. *)
Theorem truncate_scenario_result :
  (let r := truncate_by_index empty_world in
   ∃ new_ts, value_of r = Some new_ts
     ∧ data_of (world_of r) new_ts "time" = Some (A1 (ints [3; 4; 5; 6; 7; 8]%Z))
     ∧ data_of (world_of r) new_ts "counts" = Some (A1 (ints [30; 40; 50; 60; 70; 80]%Z)))
  ∧ (let r := truncate_by_time empty_world in
     ∃ new_ts, value_of r = Some new_ts
       ∧ data_of (world_of r) new_ts "time" = Some (A1 (ints [6; 7; 8; 9]%Z))
       ∧ data_of (world_of r) new_ts "counts" = Some (A1 (ints [60; 70; 80; 90]%Z))).
Proof.
  split; exists 1; repeat split; vm_compute; reflexivity.
Qed.

(** C6 — joining the series 1..9 with the list of two empty series: the
    loop warns once and removes the first empty series only; the second one
    is still in the list that the rest of [_join_timeseries] merges. *)
Theorem join_keeps_second_empty_input :
  let r0 := one_to_nine_and_two_empty empty_world in
  ∃ ts e1 e2,
    value_of r0 = Some (ts, e1, e2)
    ∧ value_of (TimeseriesFields.getattr e2 "time" (world_of r0)) = Some VNone
    ∧ let r := StingrayTimeseries._join_timeseries_inputs ts (Many [PObj e1; PObj e2])
                 (world_of r0) in
      value_of r = Some (inr [PObj e2])
      ∧ warnings (world_of r) = ["One of the time series you are joining is empty."].
Proof.
  exists 0, 1, 2. repeat split; vm_compute; reflexivity.
Qed.


(** C2, the failing input — [apply_gtis([[0.5, 2.5]], inplace=False)] on
    the series 1..9 (dt = 1, no GTI set): the list is valid and the new
    object holds the two samples inside it, but its [gti] is the one
    derived for the original series, [[0.5, 9.5]], not the list supplied:
    [apply_gtis] assigns the new GTI only when it works in place. *)
Lemma apply_gtis_copy_keeps_old_gti :
  let r0 := one_to_nine_and_gti empty_world in
  ∃ ts g,
    value_of r0 = Some (ts, VArr g) ∧ elems g = A2 [(1 # 2, 5 # 2)]%Q
    ∧ check_gtis (VArr g) = None
    ∧ let r := StingrayTimeseries.apply_gtis ts (VArr g) false (world_of r0) in
      ∃ newts, value_of r = Some newts
        ∧ data_of (world_of r) newts "time" = Some (A1 (ints [1; 2]%Z))
        ∧ data_of (world_of r) newts "gti" = Some (A2 [(1 # 2, 19 # 2)]%Q)
        ∧ data_of (world_of r) newts "gti" ≠ Some (elems g).
Proof.
  eexists 0, _. split; [vm_compute; reflexivity|]. simpl.
  split; [reflexivity|]. split; [vm_compute; reflexivity|].
  exists 1. split; [vm_compute; reflexivity|].
  split; [vm_compute; reflexivity|].
  split; [vm_compute; reflexivity|].
  vm_compute. discriminate.
Qed.

(** C5, counterexample — [x + y] for x with time [1, 2, 3] and y with time
    [1, 2, 4], whose GTIs differ and have [[0.5, 2.5]] in common: the time
    arrays differ, yet the addition succeeds, on the two samples that lie
    in the common GTI. *)
Lemma add_succeeds_on_different_times :
  let r0 := different_times empty_world in
  ∃ x y,
    value_of r0 = Some (x, y)
    ∧ data_of (world_of r0) x "time" = Some (A1 (ints [1; 2; 3]%Z))
    ∧ data_of (world_of r0) y "time" = Some (A1 (ints [1; 2; 4]%Z))
    ∧ let r := StingrayTimeseries.__add__ sqrt_floor x (PObj y) (world_of r0) in
      ∃ ts, value_of r = Some ts
        ∧ data_of (world_of r) ts "time" = Some (A1 (ints [1; 2]%Z))
        ∧ data_of (world_of r) ts "counts" = Some (A1 (ints [11; 22]%Z)).
Proof.
  exists 0, 1. repeat split; try (vm_compute; reflexivity).
  exists 2. repeat split; vm_compute; reflexivity.
Qed.

(** C4, counterexample — the series with time [1, 2, 3] and the array
    attribute "Counts" goes to a table and back: the column comes back as
    "counts", and the result does not compare equal to the original. *)
Lemma round_trip_lowers_names :
  let r := round_trip capitalised empty_world in
  ∃ x y,
    value_of r = Some (x, y, false)
    ∧ (ob ← objs (world_of r) !! x; Some (AttributeClassifier.array_attrs ob)) = Some ["Counts"]
    ∧ (ob ← objs (world_of r) !! y; Some (AttributeClassifier.array_attrs ob)) = Some ["counts"].
Proof.
  exists 0, 1. repeat split; vm_compute; reflexivity.
Qed.


(** C9, counterexample — in [StingrayTimeseries([1, 2, 3], dt=1, _tag=3)]
    the data attributes "_tag" and "_time" are in none of the four
    categories. *)
Lemma private_fields_are_in_no_category :
  let r := tagged empty_world in
  ∃ self ob,
    value_of r = Some self ∧ objs (world_of r) !! self = Some ob
    ∧ AttributeClassifier.data_attributes ob
      = ["_tag"; "_time"; "dt"; "high_precision"; "mjdref"; "notes"]
    ∧ AttributeClassifier.array_attrs ob = []
    ∧ AttributeClassifier.internal_array_attrs ob = []
    ∧ AttributeClassifier.meta_attrs ob = ["dt"; "high_precision"; "mjdref"; "notes"; "gti"].
Proof.
  eexists 0, _. split; [vm_compute; reflexivity|].
  split; [vm_compute; reflexivity|].
  repeat split; vm_compute; reflexivity.
Qed.

End scenarios.


(** ** The attribute classifier *)

Section classifier.
Import AttributeClassifier.

Lemma elem_of_filter_bool {A} (f : A → bool) (l : list A) (x : A) :
  x ∈ List.filter f l ↔ x ∈ l ∧ f x = true.
Proof. rewrite !list_elem_of_In. apply filter_In. Qed.

Lemma NoDup_filter_bool {A} (f : A → bool) (l : list A) :
  NoDup l → NoDup (List.filter f l).
Proof.
  induction 1 as [|x l Hx Hl IH]; simpl; [constructor|].
  destruct (f x); [|done].
  constructor; [|done]. rewrite elem_of_filter_bool. tauto.
Qed.

Lemma mem_true (name : string) (names : list string) :
  mem name names = true ↔ name ∈ names.
Proof.
  unfold mem. rewrite existsb_exists. split.
  - intros (x & Hin & Heq). apply String.eqb_eq in Heq as ->.
    by apply list_elem_of_In.
  - intros Hin. exists name. split; [by apply list_elem_of_In|apply String.eqb_refl].
Qed.

Lemma mem_false (name : string) (names : list string) :
  mem name names = false ↔ name ∉ names.
Proof.
  rewrite <- mem_true. destruct (mem name names); split; congruence.
Qed.

Lemma dir_NoDup (self : obj) : NoDup (dir self).
Proof.
  unfold dir. rewrite merge_sort_Permutation. apply NoDup_remove_dups.
Qed.

Lemma data_attributes_NoDup (self : obj) : NoDup (data_attributes self).
Proof. apply NoDup_filter_bool, dir_NoDup. Qed.

Lemma data_attributes_spec (self : obj) (attr : string) :
  attr ∈ data_attributes self →
  startswith "__" attr = false ∧ (attr ∉ properties)
  ∧ ∃ value, lookup_attr self attr = Some value
      ∧ callable value = false ∧ dtype_is_object value = false.
Proof.
  unfold data_attributes. rewrite elem_of_filter_bool. intros [_ H].
  repeat (apply andb_prop in H as [H ?]).
  destruct (lookup_attr self attr) as [value|]; [|done].
  repeat match goal with H : (_ && _) = true |- _ => apply andb_prop in H as [? ?] end.
  repeat match goal with H : negb _ = true |- _ => apply negb_true_iff in H end.
  split; [done|]. split; [by apply mem_false|]. eauto.
Qed.

Lemma array_attrs_spec (self : obj) (attr : string) :
  attr ∈ array_attrs self →
  attr ∈ data_attributes self ∧ startswith "_" attr = false
  ∧ attr ≠ main_array_attr ∧ (attr ∉ not_array_attr)
  ∧ ∃ main_attr a, _time self = Some main_attr
      ∧ lookup_attr self attr = Some (VArr a)
      ∧ plen (elems a) = plen (elems main_attr).
Proof.
  unfold array_attrs. destruct (_time self) as [main_attr|]; [|by intros ?%elem_of_nil].
  rewrite elem_of_filter_bool. intros [Hd H].
  destruct (lookup_attr self attr) as [value|];
    [|by rewrite andb_false_r in H].
  repeat match goal with H : (_ && _) = true |- _ => apply andb_prop in H as [? ?] end.
  repeat match goal with H : negb _ = true |- _ => apply negb_true_iff in H end.
  split; [done|]. split; [done|].
  split; [by apply String.eqb_neq|]. split; [by apply mem_false|].
  destruct value as [| | | |a|]; try done.
  exists main_attr, a. split; [done|]. split; [done|].
  match goal with H : bool_decide _ = true |- _ => apply bool_decide_eq_true in H end.
  simpl in *. congruence.
Qed.

Lemma internal_array_attrs_spec (self : obj) (attr : string) :
  attr ∈ internal_array_attrs self →
  attr ∈ data_attributes self ∧ startswith "_" attr = true
  ∧ attr ≠ "_time" ∧ attr ≠ "_gti"
  ∧ ∃ main_attr a, _time self = Some main_attr
      ∧ lookup_attr self attr = Some (VArr a)
      ∧ plen (elems a) = plen (elems main_attr).
Proof.
  unfold internal_array_attrs.
  destruct (_time self) as [main_attr|]; [|by intros ?%elem_of_nil].
  rewrite elem_of_filter_bool. intros [Hd H].
  destruct (lookup_attr self attr) as [value|];
    [|by rewrite andb_false_r in H].
  repeat match goal with H : (_ && _) = true |- _ => apply andb_prop in H as [? ?] end.
  repeat match goal with H : negb _ = true |- _ => apply negb_true_iff in H end.
  split; [done|]. split; [done|].
  split; [by apply String.eqb_neq|].
  split.
  { match goal with H : mem _ _ = false |- _ => apply mem_false in H end.
    intros ->. set_solver. }
  destruct value as [| | | |a|]; try done.
  exists main_attr, a. split; [done|]. split; [done|].
  match goal with H : bool_decide _ = true |- _ => apply bool_decide_eq_true in H end.
  simpl in *. congruence.
Qed.

Lemma startswith_dunder (attr : string) :
  startswith "_" attr = false → startswith "__" attr = false.
Proof.
  unfold startswith. destruct attr as [|c attr]; [done|].
  cbn [String.prefix]. destruct (Ascii.ascii_dec _ c); [|done].
  by destruct attr.
Qed.

Lemma meta_attrs_eq (self : obj) :
  meta_attrs self =
  (List.filter
     (λ attr, negb (mem attr (array_attrs self ++ [main_array_attr]
                              ++ internal_array_attrs self)%list)
              && negb (startswith "_" attr))
     (data_attributes self) ++ not_array_attr)%list.
Proof. reflexivity. Qed.

Lemma array_attrs_NoDup (self : obj) : NoDup (array_attrs self).
Proof.
  unfold array_attrs. destruct (_time self); [|constructor].
  apply NoDup_filter_bool, data_attributes_NoDup.
Qed.

Lemma internal_array_attrs_NoDup (self : obj) : NoDup (internal_array_attrs self).
Proof.
  unfold internal_array_attrs. destruct (_time self); [|constructor].
  apply NoDup_filter_bool, data_attributes_NoDup.
Qed.

Lemma main_array_attr_not_data (self : obj) : main_array_attr ∉ data_attributes self.
Proof.
  intros (_ & Hp & _)%data_attributes_spec. apply Hp.
  unfold properties, main_array_attr. set_solver.
Qed.

Lemma gti_not_data (self : obj) : "gti" ∉ data_attributes self.
Proof.
  intros (_ & Hp & _)%data_attributes_spec. apply Hp.
  unfold properties. set_solver.
Qed.

Lemma private_in_internal_array_attrs (self : obj) (attr : string) :
  startswith "_" attr = true →
  (attr ∈ internal_array_attrs self ↔
   attr ∈ data_attributes self ∧ attr ≠ "_time" ∧ attr ≠ "_gti"
   ∧ ∃ t a, _time self = Some t ∧ lookup_attr self attr = Some (VArr a)
            ∧ plen (elems a) = plen (elems t) ∧ psize (elems a) ≠ 0%nat).
Proof.
  intros Hp. split.
  - intros Hin.
    pose proof (internal_array_attrs_spec _ _ Hin) as (Hd & _ & Ht & Hg & t & a & Hmain & Ha & Hlen).
    split; [done|]. split; [done|]. split; [done|].
    exists t, a. repeat split; try done.
    revert Hin. unfold internal_array_attrs. rewrite Hmain, elem_of_filter_bool, Ha.
    intros [_ H].
    repeat match goal with H : (_ && _) = true |- _ => apply andb_prop in H as [? ?] end.
    match goal with H : negb (Nat.eqb _ 0) = true |- _ =>
      apply negb_true_iff, Nat.eqb_neq in H; exact H end.
  - intros (Hd & Ht & Hg & t & a & Hmain & Ha & Hlen & Hsize).
    unfold internal_array_attrs. rewrite Hmain, elem_of_filter_bool. split; [done|].
    rewrite Ha, Hp. simpl.
    change ("_" +:+ main_array_attr) with "_time". change ("_" +:+ "gti") with "_gti".
    apply String.eqb_neq in Ht, Hg. rewrite Ht, Hg.
    apply Nat.eqb_neq in Hsize. rewrite Hsize. simpl.
    rewrite Hlen. by rewrite bool_decide_eq_true_2.
Qed.

(** C9, as the code has it — for every object, no name occurs twice in the
    four categories [array_attrs], the main attribute, [internal_array_attrs]
    and [meta_attrs] taken together, and every data attribute whose name
    does not start with an underscore is in [array_attrs] or in
    [meta_attrs].  A name that starts with an underscore is never in
    [array_attrs], never the main attribute and never in [meta_attrs]; it
    is in [internal_array_attrs] exactly when it is a data attribute other
    than [_time] and [_gti] that holds a non-empty array with as many rows
    as the time stamps.  So a private field that is not such an array is in
    none of the four categories. *)
Theorem categories_are_disjoint_and_cover_public_fields (self : obj) :
  NoDup (array_attrs self ++ [main_array_attr] ++ internal_array_attrs self
         ++ meta_attrs self)%list
  ∧ (∀ attr, attr ∈ data_attributes self → startswith "_" attr = false →
       attr ∈ array_attrs self ∨ attr ∈ meta_attrs self)
  ∧ ∀ attr, startswith "_" attr = true →
      attr ∉ array_attrs self ∧ attr ≠ main_array_attr ∧ attr ∉ meta_attrs self
      ∧ (attr ∈ internal_array_attrs self ↔
         attr ∈ data_attributes self ∧ attr ≠ "_time" ∧ attr ≠ "_gti"
         ∧ ∃ t a, _time self = Some t ∧ lookup_attr self attr = Some (VArr a)
                  ∧ plen (elems a) = plen (elems t) ∧ psize (elems a) ≠ 0%nat).
Proof.
  assert (Hprivate : ∀ attr, startswith "_" attr = true →
            attr ∉ array_attrs self ∧ attr ≠ main_array_attr ∧ attr ∉ meta_attrs self).
  { intros attr Hp. split; [|split].
    - intros (_ & Hp' & _)%array_attrs_spec. congruence.
    - intros ->. done.
    - rewrite meta_attrs_eq.
      intros [[_ H]%elem_of_filter_bool| ->%list_elem_of_singleton]%elem_of_app; [|done].
      apply andb_prop in H as [_ H]. apply negb_true_iff in H. congruence. }
  cut (NoDup (array_attrs self ++ [main_array_attr] ++ internal_array_attrs self
              ++ meta_attrs self)%list
       ∧ (∀ attr, attr ∈ data_attributes self → startswith "_" attr = false →
            attr ∈ array_attrs self ∨ attr ∈ meta_attrs self)).
  { intros [H1 H2]. split; [done|]. split; [done|]. intros attr Hp.
    destruct (Hprivate attr Hp) as (Ha & Hm & Hmeta).
    split; [done|]. split; [done|]. split; [done|].
    by apply private_in_internal_array_attrs. }
  clear Hprivate.
  rewrite meta_attrs_eq.
  set (arrays := (array_attrs self ++ [main_array_attr] ++ internal_array_attrs self)%list).
  set (others := List.filter _ (data_attributes self)).
  assert (Hothers : ∀ attr, attr ∈ others →
            attr ∈ data_attributes self ∧ (attr ∉ arrays) ∧ startswith "_" attr = false).
  { intros attr [Hd H]%elem_of_filter_bool. apply andb_prop in H as [H1 H2].
    apply negb_true_iff in H1, H2. by apply mem_false in H1. }
  split.
  - apply NoDup_app. split; [apply array_attrs_NoDup|]. split.
    { intros attr Ha Hrest.
      pose proof (array_attrs_spec _ _ Ha) as (Hd & Hp & Hm & Hn & _).
      apply elem_of_app in Hrest as [->%list_elem_of_singleton|Hrest]; [done|].
      apply elem_of_app in Hrest as [Hi|Hrest].
      { apply internal_array_attrs_spec in Hi as (_ & Hp' & _). congruence. }
      apply elem_of_app in Hrest as [Hmeta|Hg]; [|done].
      apply Hothers in Hmeta as (_ & Hmeta & _).
      apply Hmeta, elem_of_app. by left. }
    apply NoDup_app. split; [apply NoDup_singleton|]. split.
    { intros attr ->%list_elem_of_singleton Hrest.
      apply elem_of_app in Hrest as [Hi|Hrest].
      { by apply internal_array_attrs_spec in Hi as (_ & Hp & _). }
      apply elem_of_app in Hrest as [Hmeta|Hg].
      - apply Hothers in Hmeta as (Hd & _). by apply main_array_attr_not_data in Hd.
      - by apply list_elem_of_singleton in Hg. }
    apply NoDup_app. split; [apply internal_array_attrs_NoDup|]. split.
    { intros attr Hi Hrest.
      pose proof (internal_array_attrs_spec _ _ Hi) as (_ & Hp & _).
      apply elem_of_app in Hrest as [Hmeta|Hg].
      - apply Hothers in Hmeta as (_ & _ & Hp'). congruence.
      - by apply list_elem_of_singleton in Hg as ->. }
    apply NoDup_app. split; [apply NoDup_filter_bool, data_attributes_NoDup|].
    split; [|apply NoDup_singleton].
    intros attr Hmeta ->%list_elem_of_singleton.
    apply Hothers in Hmeta as (Hd & _). by apply gti_not_data in Hd.
  - intros attr Hd Hp.
    destruct (decide (attr ∈ array_attrs self)) as [|Ha]; [by left|right].
    apply elem_of_app. left. apply elem_of_filter_bool. split; [done|].
    rewrite Hp, andb_true_r. apply negb_true_iff, mem_false.
    intros [?|[->%list_elem_of_singleton|Hi]%elem_of_app]%elem_of_app; [done| |].
    + by apply main_array_attr_not_data in Hd.
    + apply internal_array_attrs_spec in Hi as (_ & Hp' & _). congruence.
Qed.

(** An evaluation of the theorem on the object of the counterexample. *)
Lemma categories_are_disjoint_and_cover_public_fields_witness :
  ∃ self, value_of (Scenarios.tagged empty_world) = Some 0
    ∧ objs (world_of (Scenarios.tagged empty_world)) !! 0 = Some self
    ∧ ("dt" ∈ array_attrs self ∨ "dt" ∈ meta_attrs self).
Proof.
  eexists. split; [vm_compute; reflexivity|]. split; [vm_compute; reflexivity|].
  apply (proj1 (proj2 (categories_are_disjoint_and_cover_public_fields _))).
  - apply list_elem_of_In. vm_compute. tauto.
  - reflexivity.
Defined.

End classifier.

(** ** Equality *)

(** C10 — when the right-hand operand of [==] is not an instance of the type
    of [self], the comparison raises a [ValueError]; it returns neither
    [True] nor [False]. *)
Theorem eq_with_other_type_raises (self : oid) (other_ts : operand) (w : world) :
  StingrayObject.isinstance_of_self other_ts = false →
  (∃ msg, StingrayTimeseries.__eq__ self other_ts w = Raise (ValueError msg) w)
  ∧ ∀ b w', StingrayTimeseries.__eq__ self other_ts w ≠ Ok b w'.
Proof.
  destruct other_ts as [other|v]; [discriminate|]. intros _.
  unfold StingrayTimeseries.__eq__, StingrayObject.__eq__, raise.
  split; [eauto|discriminate].
Qed.

(** The series 1..9 compared with the number 3. *)
Lemma eq_with_other_type_raises_witness :
  ∃ self w, value_of (Scenarios.one_to_nine empty_world) = Some self
    ∧ w = world_of (Scenarios.one_to_nine empty_world)
    ∧ (∃ msg, StingrayTimeseries.__eq__ self (PVal (VNum 3)) w = Raise (ValueError msg) w)
    ∧ ∀ b w', StingrayTimeseries.__eq__ self (PVal (VNum 3)) w ≠ Ok b w'.
Proof.
  exists 0, (world_of (Scenarios.one_to_nine empty_world)).
  split; [vm_compute; reflexivity|]. split; [reflexivity|].
  apply eq_with_other_type_raises. reflexivity.
Defined.


(** ** Rules for runs *)

Section rules.
Import TimeseriesFields.


Lemma returns_bind {A B} (m : M A) (f : A → M B) w (Q : B → world → Prop) :
  returns m w (λ a w', returns (f a) w' Q) → returns (m ≫= f) w Q.
Proof.
  unfold returns, mbind, M_bind. by destruct (m w).
Qed.

Lemma returns_mono {A} (m : M A) w (Q Q' : A → world → Prop) :
  returns m w Q → (∀ a w', Q a w' → Q' a w') → returns m w Q'.
Proof. unfold returns. destruct (m w); eauto. Qed.

Lemma returns_eq {A} (m : M A) w a w' (Q : A → world → Prop) :
  m w = Ok a w' → Q a w' → returns m w Q.
Proof. unfold returns. by intros ->. Qed.

Lemma bind_eq {A B} (m : M A) (f : A → M B) w a w' :
  m w = Ok a w' → (m ≫= f) w = f a w'.
Proof. unfold mbind, M_bind. by intros ->. Qed.

Lemma bind_raise {A B} (m : M A) (f : A → M B) w e w' :
  m w = Raise e w' → (m ≫= f) w = Raise e w'.
Proof. unfold mbind, M_bind. by intros ->. Qed.

Lemma returns_step {A B} (m : M A) (f : A → M B) w a w' (Q : B → world → Prop) :
  m w = Ok a w' → returns (f a) w' Q → returns (m ≫= f) w Q.
Proof. intros Hm. unfold returns. by rewrite (bind_eq _ _ _ _ _ Hm). Qed.

Lemma raises_step {A B} (m : M A) (f : A → M B) w a w' P :
  m w = Ok a w' → raises (f a) w' P → raises (m ≫= f) w P.
Proof. intros Hm. unfold raises. by rewrite (bind_eq _ _ _ _ _ Hm). Qed.

Lemma returns_inv {A} (m : M A) w (Q : A → world → Prop) :
  returns m w Q → ∃ a w', m w = Ok a w' ∧ Q a w'.
Proof. unfold returns. destruct (m w); [eauto|done]. Qed.

Lemma raises_bind_l {A B} (m : M A) (f : A → M B) w P :
  raises m w P → raises (m ≫= f) w P.
Proof. unfold raises, mbind, M_bind. by destruct (m w). Qed.


Lemma raises_inv {A} (m : M A) w P :
  raises m w P → ∃ e w', m w = Raise e w' ∧ P e.
Proof. unfold raises. destruct (m w); [done|eauto]. Qed.

Lemma for_each_returns {A} (l : list A) (body : A → M unit)
    (I : list A → world → Prop) w :
  I [] w →
  (∀ done x todo w, l = (done ++ x :: todo)%list → I done w →
     returns (body x) w (λ _ w', I (done ++ [x])%list w')) →
  returns (for_each l body) w (λ _ w', I l w').
Proof.
  revert I w. induction l as [|x l IH]; intros I w HI Hbody; [done|].
  simpl. apply returns_bind.
  eapply returns_mono; [apply (Hbody [] x l w); done|].
  intros [] w' HI'. simpl in HI'.
  apply (IH (λ done w, I (x :: done) w)); [done|].
  intros done y todo w'' -> HI''.
  apply (Hbody (x :: done) y todo w''); done.
Qed.

Lemma plain_name_spec (name : string) :
  plain_name name = true →
  String.eqb name "time" = false ∧ String.eqb name "gti" = false
  ∧ mem name ["mask"; "n"; "main_array_attr"; "not_array_attr"] = false
  ∧ mem name ["mask"; "n"] = false
  ∧ String.eqb name "_time" = false ∧ String.eqb name "_gti" = false.
Proof.
  unfold plain_name, mem. simpl. intros H%negb_true_iff.
  repeat (apply orb_false_elim in H as [? H]).
  repeat split; try done; simpl; repeat (apply orb_false_intro; [done|]); done.
Qed.

Lemma load_eq self w o : objs w !! self = Some o → load self w = Ok o w.
Proof. unfold load. by intros ->. Qed.


Lemma getattr_plain_eq self name w o v :
  plain_name name = true → objs w !! self = Some o → lookup_attr o name = Some v →
  getattr self name w = Ok v w.
Proof.
  intros (H1 & H2 & H3 & _)%plain_name_spec Ho Hv. unfold getattr.
  rewrite H1, H2, H3. unfold mbind, M_bind. rewrite (load_eq _ _ _ Ho). by rewrite Hv.
Qed.

Lemma getattr_time_eq self w o :
  objs w !! self = Some o → getattr self "time" w = Ok (of_option (_time o)) w.
Proof.
  intros Ho. unfold getattr. simpl. unfold mbind, M_bind. by rewrite (load_eq _ _ _ Ho).
Qed.

Lemma setattr_plain_eq self name v w o :
  plain_name name = true → objs w !! self = Some o →
  setattr self name v w
  = Ok () (with_obj w self (Obj (_time o) (_gti o) (<[name := v]> (__dict__ o)))).
Proof.
  intros (H1 & H2 & _ & H3 & H4 & H5)%plain_name_spec Ho.
  unfold setattr, setattr_plain, set_dict. rewrite H1, H2, H3, H4, H5.
  unfold mbind, M_bind. by rewrite (load_eq _ _ _ Ho).
Qed.

Lemma with_obj_lookup w o ob : objs (with_obj w o ob) !! o = Some ob.
Proof. apply lookup_insert_eq. Qed.

Lemma with_obj_lookup_ne w o o' ob :
  o ≠ o' → objs (with_obj w o ob) !! o' = objs w !! o'.
Proof. intros. by apply lookup_insert_ne. Qed.

Lemma with_obj_with_obj w o ob ob' :
  with_obj (with_obj w o ob) o ob' = with_obj w o ob'.
Proof. unfold with_obj. simpl. by rewrite insert_insert_eq. Qed.

Lemma setattr_gti_eq self v w o :
  objs w !! self = Some o →
  setattr self "gti" v w
  = match v with
    | VNone => Ok () (with_obj w self (Obj (_time o) None (__dict__ o)))
    | VArr a => Ok () (with_obj w self (Obj (_time o) (Some a)
                                          (<["_mask" := VNone]> (__dict__ o))))
    | _ => Raise (OutOfModel "zero-dimensional GTI") w
    end.
Proof.
  intros Ho. unfold setattr, gti_setter. simpl.
  unfold mbind, M_bind. rewrite (load_eq _ _ _ Ho). by destruct v.
Qed.

Lemma setattr_private_time_eq self v w o :
  objs w !! self = Some o →
  setattr_plain self "_time" v w
  = match v with
    | VNone => Ok () (with_obj w self (Obj None (_gti o) (__dict__ o)))
    | VArr a => Ok () (with_obj w self (Obj (Some a) (_gti o) (__dict__ o)))
    | _ => Raise (OutOfModel "_time") w
    end.
Proof.
  intros Ho. unfold setattr_plain. simpl.
  unfold mbind, M_bind. rewrite (load_eq _ _ _ Ho). by destruct v.
Qed.

Lemma setattr_gti_none_eq self w o :
  objs w !! self = Some o →
  setattr self "gti" VNone w = Ok () (with_obj w self (Obj (_time o) None (__dict__ o))).
Proof. intros Ho. by rewrite (setattr_gti_eq _ _ _ _ Ho). Qed.

Lemma setattr_gti_arr_eq self a w o :
  objs w !! self = Some o →
  setattr self "gti" (VArr a) w
  = Ok () (with_obj w self (Obj (_time o) (Some a) (<["_mask" := VNone]> (__dict__ o)))).
Proof. intros Ho. by rewrite (setattr_gti_eq _ _ _ _ Ho). Qed.

Lemma setattr_private_time_none_eq self w o :
  objs w !! self = Some o →
  setattr_plain self "_time" VNone w
  = Ok () (with_obj w self (Obj None (_gti o) (__dict__ o))).
Proof. intros Ho. by rewrite (setattr_private_time_eq _ _ _ _ Ho). Qed.

Lemma setattr_private_time_arr_eq self a w o :
  objs w !! self = Some o →
  setattr_plain self "_time" (VArr a) w
  = Ok () (with_obj w self (Obj (Some a) (_gti o) (__dict__ o))).
Proof. intros Ho. by rewrite (setattr_private_time_eq _ _ _ _ Ho). Qed.

Lemma new_instance_eq w :
  new_instance w
  = Ok (next_oid w)
       (World (<[next_oid w := fresh_obj]> (objs w)) (S (next_oid w)) (next_buf w)
              (warnings w)).
Proof.
  unfold new_instance, __init__.
  erewrite bind_eq by reflexivity.
  set (self := next_oid w).
  change (World (<[self := ?o]> (objs w)) (S self) (next_buf w) (warnings w))
    with (with_obj (World (objs w) (S self) (next_buf w) (warnings w)) self o).
  simpl.
  repeat (erewrite bind_eq;
          [|first [ apply setattr_plain_eq; [reflexivity|apply with_obj_lookup]
                  | apply setattr_gti_none_eq, with_obj_lookup
                  | apply setattr_private_time_none_eq, with_obj_lookup
                  | reflexivity ]];
          rewrite ?with_obj_with_obj; simpl).
  reflexivity.
Qed.

End rules.


(** ** Masking *)

Section masking.
Import AttributeClassifier TimeseriesFields.

Lemma data_attributes_not_setting (self : obj) (attr : string) :
  attr ∈ data_attributes self → mem attr ["main_array_attr"; "not_array_attr"] = false.
Proof.
  unfold data_attributes. rewrite elem_of_filter_bool. intros [_ H].
  repeat (apply andb_prop in H as [H ?]).
  repeat match goal with H : (_ && _) = true |- _ => apply andb_prop in H as [? ?] end.
  by repeat match goal with H : negb _ = true |- _ => apply negb_true_iff in H end.
Qed.

Lemma plain_name_intro (name : string) :
  name ∉ properties → mem name ["main_array_attr"; "not_array_attr"] = false →
  name ≠ "_time" → name ≠ "_gti" → plain_name name = true.
Proof.
  intros Hp Hs Ht Hg. unfold plain_name. apply negb_true_iff, mem_false.
  apply mem_false in Hs. unfold properties in Hp. set_solver.
Qed.

Lemma startswith_underscore_ne (attr name : string) :
  startswith "_" attr = false → startswith "_" name = true → attr ≠ name.
Proof. congruence. Qed.

Lemma array_attr_plain (self : obj) (attr : string) :
  attr ∈ array_attrs self → plain_name attr = true.
Proof.
  intros (Hd & Hp & _)%array_attrs_spec.
  pose proof (data_attributes_not_setting _ _ Hd).
  apply data_attributes_spec in Hd as (_ & Hprop & _).
  apply plain_name_intro; try done; by eapply startswith_underscore_ne.
Qed.

Lemma internal_array_attr_plain (self : obj) (attr : string) :
  attr ∈ internal_array_attrs self → plain_name attr = true.
Proof.
  intros (Hd & _ & Ht & Hg & _)%internal_array_attrs_spec.
  pose proof (data_attributes_not_setting _ _ Hd).
  apply data_attributes_spec in Hd as (_ & Hprop & _).
  by apply plain_name_intro.
Qed.

Lemma all_attrs_spec (self : obj) (attr : string) :
  attr ∈ (internal_array_attrs self ++ array_attrs self)%list →
  plain_name attr = true
  ∧ ∃ main_attr a, _time self = Some main_attr
      ∧ lookup_attr self attr = Some (VArr a)
      ∧ plen (elems a) = plen (elems main_attr).
Proof.
  intros [Hi|Ha]%elem_of_app.
  - split; [by eapply internal_array_attr_plain|].
    by apply internal_array_attrs_spec in Hi as (_ & _ & _ & _ & ?).
  - split; [by eapply array_attr_plain|].
    by apply array_attrs_spec in Ha as (_ & _ & _ & _ & ?).
Qed.








Lemma only_changes_refl o w : only_changes o w w.
Proof. done. Qed.

Lemma only_changes_with_obj o w n ob :
  (next_buf w ≤ n)%nat → only_changes o w (with_obj (with_buf w n) o ob).
Proof.
  intros Hn. split; [|done]. intros o' Hne. simpl. by rewrite lookup_insert_ne.
Qed.

Lemma only_changes_trans o w1 w2 w3 :
  only_changes o w1 w2 → only_changes o w2 w3 → only_changes o w1 w3.
Proof.
  intros (H1 & H2 & H3 & H4) (H1' & H2' & H3' & H4').
  split; [|repeat split; [congruence..|lia]].
  intros o' Hne. rewrite H1', H1; done.
Qed.



End masking.


(** ** Applying GTIs *)

Section apply_gtis.
Import AttributeClassifier TimeseriesFields.
Context {gti_module : GtiModule}.

Lemma getattr_gti_stored (self : oid) w (o : obj) (g : ndarray) :
  objs w !! self = Some o → _gti o = Some g →
  getattr self "gti" w = Ok (VArr g) w.
Proof.
  intros Ho Hg. unfold getattr, gti_getter. simpl.
  erewrite bind_eq by (by apply load_eq). by rewrite Hg.
Qed.

Lemma with_obj_id w (self : oid) (o : obj) :
  objs w !! self = Some o → with_obj (with_buf w (next_buf w)) self o = w.
Proof.
  intros Ho. destruct w as [os ? ? ?]. unfold with_obj, with_buf. simpl in *.
  f_equal. by apply insert_id.
Qed.

Lemma elem_of_bufs_of (ob : obj) (b : loc) :
  b ∈ bufs_of ob ↔
  b ∈ bufs_of_value (of_option (_time ob)) ∨ b ∈ bufs_of_value (of_option (_gti ob))
  ∨ ∃ k v, __dict__ ob !! k = Some v ∧ b ∈ bufs_of_value v.
Proof.
  unfold bufs_of. rewrite !elem_of_app. do 2 apply or_iff_compat_l.
  rewrite list_elem_of_In, in_flat_map. split.
  - intros ([k v] & Hin & Hb). exists k, v. split.
    + by apply elem_of_map_to_list, list_elem_of_In.
    + by apply list_elem_of_In.
  - intros (k & v & Hk & Hb). exists (k, v). split.
    + by apply list_elem_of_In, elem_of_map_to_list.
    + by apply list_elem_of_In.
Qed.

(** Reading the [gti] property of an object that has a GTI, stored or
    derivable: the value is returned, and stored when it was derived. *)
Lemma getattr_gti_eq (self : oid) w (o : obj) (p : payload) :
  objs w !! self = Some o → gti_payload o = Some p →
  ∃ g o' n,
    getattr self "gti" w = Ok (VArr g) (with_obj (with_buf w n) self o')
    ∧ elems g = p ∧ _gti o' = Some g ∧ _time o' = _time o ∧ __dict__ o' = __dict__ o
    ∧ (next_buf w ≤ n)%nat ∧ same_but_gti_cache o o'
    ∧ ∀ b, b ∈ bufs_of o' → b ∈ bufs_of o ∨ (next_buf w ≤ b < n)%nat.
Proof.
  intros Ho Hp. unfold gti_payload in Hp.
  destruct (_gti o) as [g|] eqn:Hg.
  - injection Hp as <-. exists g, o, (next_buf w).
    rewrite (with_obj_id _ _ _ Ho). split; [by eapply getattr_gti_stored|].
    repeat split; try done; [by left|by left].
  - destruct (_time o) as [t|] eqn:Ht; [|done].
    destruct (derive_gti o t) as [e|p'] eqn:Hd; [done|]. injection Hp as ->.
    exists (NdArray (next_buf w) p), (Obj (Some t) (Some (NdArray (next_buf w) p)) (__dict__ o)),
      (S (next_buf w)).
    split.
    { unfold getattr, gti_getter. simpl.
      erewrite bind_eq by (by apply load_eq). rewrite Hg, Ht, Hd. reflexivity. }
    repeat split; try done; [simpl; lia| |].
    + right. split; [done|]. eexists. split; [done|].
      unfold gti_payload. by rewrite Hg, Ht, Hd.
    + intros b. rewrite !elem_of_bufs_of. simpl. rewrite Ht, Hg. simpl.
      intros [Hb|[Hb|Hb]]; [left; by left| |left; by right; right].
      apply list_elem_of_singleton in Hb as ->. right. lia.
Qed.


End apply_gtis.


(** ** Arithmetic *)

Section arithmetic.
Import AttributeClassifier TimeseriesFields.
Variable np_sqrt : Q → Q.
Context {gti_module : GtiModule}.

Lemma operation_with_different_times_raises (self other : oid) (o1 o2 : obj) w
    operation operated_attrs error_attrs error_operation inplace :
  objs w !! self = Some o1 → objs w !! other = Some o2 →
  array_equal (of_option (_time o1)) (of_option (_time o2)) = false →
  raises (StingrayObject._operation_with_other_obj self (PObj other) operation
            operated_attrs error_attrs error_operation inplace) w is_ValueError.
Proof.
  intros H1 H2 Hne. unfold StingrayObject._operation_with_other_obj.
  eapply raises_step; [by apply load_eq|]. simpl.
  eapply raises_step; [by apply getattr_time_eq|].
  eapply raises_step; [by apply getattr_time_eq|].
  by rewrite Hne.
Qed.

Lemma timeseries_operation_with_different_times_raises (self other : oid) (o1 o2 : obj)
    (m1 m2 : pyvalue) (p1 p2 : payload) w operation :
  objs w !! self = Some o1 → objs w !! other = Some o2 →
  array_equal (of_option (_time o1)) (of_option (_time o2)) = false →
  lookup_attr o1 "mjdref" = Some m1 → lookup_attr o2 "mjdref" = Some m2 →
  StingrayTimeseries.py_ne m1 m2 = inr false →
  gti_payload o1 = Some p1 → gti_payload o2 = Some p2 → payload_equal p1 p2 = true →
  raises (StingrayTimeseries.method_operation_with_other_obj self (PObj other) operation
            None None (Some (StingrayObject.sqsum np_sqrt)) None) w is_ValueError.
Proof.
  intros H1 H2 Hne Hm1 Hm2 Hm Hp1 Hp2 Hp.
  assert (Hso : self ≠ other).
  { intros ->. assert (o1 = o2) as -> by congruence.
    destruct (_time o2) as [[b [xs|xs]]|]; simpl in Hne; try done.
    - clear -Hne. induction xs as [|x xs IH]; simpl in *; [done|].
      rewrite Qeq_bool_refl in Hne. auto.
    - clear -Hne. induction xs as [|x xs IH]; simpl in *; [done|].
      unfold pair_eqb in Hne at 1. rewrite !Qeq_bool_refl in Hne. auto. }
  unfold StingrayTimeseries.method_operation_with_other_obj.
  replace StingrayTimeseries.recursion_limit
    with (S (Nat.pred StingrayTimeseries.recursion_limit)) by reflexivity.
  generalize (Nat.pred StingrayTimeseries.recursion_limit) as depth. intros depth.
  cbn [StingrayTimeseries._operation_with_other_obj].
  eapply raises_step; [by eapply getattr_plain_eq|].
  eapply raises_step; [by eapply getattr_plain_eq|].
  rewrite Hm. eapply raises_step; [reflexivity|]. cbn [lift].
  eapply raises_step; [reflexivity|].
  destruct (getattr_gti_eq self w o1 p1 H1 Hp1)
    as (g1 & o1' & n1 & Hg1 & He1 & _ & Ht1 & _).
  eapply raises_step; [exact Hg1|].
  set (w1 := with_obj (with_buf w n1) self o1').
  assert (H2' : objs w1 !! other = Some o2) by (subst w1; simpl; by rewrite lookup_insert_ne).
  destruct (getattr_gti_eq other w1 o2 p2 H2' Hp2)
    as (g2 & o2' & n2 & Hg2 & He2 & _ & Ht2 & _).
  eapply raises_step; [exact Hg2|].
  simpl. rewrite He1, He2, Hp. simpl.
  eapply operation_with_different_times_raises.
  - simpl. rewrite lookup_insert_ne by done. apply lookup_insert_eq.
  - simpl. apply lookup_insert_eq.
  - by rewrite Ht1, Ht2.
Qed.

(** C5, as the code has it — the generic operation of [StingrayObject]
    raises a [ValueError] whenever the time arrays of the two operands
    differ, in an element or in length; so do [+] and [-] between two time
    series whose MJDREF and GTIs are equal. *)
Theorem arithmetic_on_different_times_raises (self other : oid) (o1 o2 : obj) (w : world) :
  objs w !! self = Some o1 → objs w !! other = Some o2 →
  array_equal (of_option (_time o1)) (of_option (_time o2)) = false →
  (∀ operation operated_attrs error_attrs error_operation inplace,
     raises (StingrayObject._operation_with_other_obj self (PObj other) operation
               operated_attrs error_attrs error_operation inplace) w is_ValueError)
  ∧ (∀ m1 m2 p1 p2,
       lookup_attr o1 "mjdref" = Some m1 → lookup_attr o2 "mjdref" = Some m2 →
       StingrayTimeseries.py_ne m1 m2 = inr false →
       gti_payload o1 = Some p1 → gti_payload o2 = Some p2 → payload_equal p1 p2 = true →
       raises (StingrayTimeseries.__add__ np_sqrt self (PObj other)) w is_ValueError
       ∧ raises (StingrayTimeseries.__sub__ np_sqrt self (PObj other)) w is_ValueError).
Proof.
  intros H1 H2 Hne. split.
  - intros. by eapply operation_with_different_times_raises.
  - intros m1 m2 p1 p2 Hm1 Hm2 Hm Hp1 Hp2 Hp.
    split; by eapply timeseries_operation_with_different_times_raises.
Qed.

End arithmetic.

(** The theorem on the series with time [1, 2, 3] and [1, 2, 4] and the GTI
    [[0.5, 4.5]]. *)
Lemma arithmetic_on_different_times_raises_witness :
  let w := world_of (Scenarios.different_times_same_gti empty_world) in
  raises (StingrayTimeseries.__add__ (gti_module := SpecGti.spec_gti) (λ x, x) 0 (PObj 1))
    w is_ValueError
  ∧ raises (StingrayTimeseries.__sub__ (gti_module := SpecGti.spec_gti) (λ x, x) 0 (PObj 1))
      w is_ValueError.
Proof.
  intros w.
  unshelve eapply (proj2 (arithmetic_on_different_times_raises (λ x, x)
                            (gti_module := SpecGti.spec_gti) 0 1 _ _ w _ _ _)
                     (VNum 0) (VNum 0) (A2 [(1 # 2, 9 # 2)]%Q) (A2 [(1 # 2, 9 # 2)]%Q));
    [shelve|shelve|vm_compute; reflexivity..].
Defined.


(** ** More on the classifier *)

Section classifier_more.
Import AttributeClassifier.

Lemma filter_split_Permutation {A} (f : A → bool) (l : list A) :
  (List.filter (λ x, negb (f x)) l ++ List.filter f l)%list ≡ₚ l.
Proof.
  induction l as [|x l IH]; simpl; [done|].
  destruct (f x); simpl.
  - rewrite <- Permutation_middle. by constructor.
  - by constructor.
Qed.

Lemma substring_all (s : string) : String.substring 0 (String.length s) s = s.
Proof. induction s as [|c s IH]; simpl; [done|]. by rewrite IH. Qed.

Lemma substring_app_suffix (pre suf : string) :
  String.substring (String.length pre) (String.length suf) (pre +:+ suf) = suf.
Proof.
  induction pre as [|c pre IH]; [apply substring_all|].
  exact IH.
Qed.

Lemma string_length_app (s1 s2 : string) :
  String.length (s1 +:+ s2) = (String.length s1 + String.length s2)%nat.
Proof.
  induction s1 as [|c s1 IH]; [done|].
  change (S (String.length (s1 +:+ s2)) = S (String.length s1 + String.length s2)).
  by rewrite IH.
Qed.

Lemma substring_split (s : string) (i : nat) :
  (i ≤ String.length s)%nat →
  s = String.substring 0 i s +:+ String.substring i (String.length s - i) s.
Proof.
  revert i. induction s as [|c s IH]; intros i Hi.
  - destruct i; [done|]. simpl in Hi. lia.
  - destruct i as [|i].
    + simpl. by rewrite substring_all.
    + simpl in *.
      change (String c s = String c (String.substring 0 i s
                                     +:+ String.substring i (String.length s - i) s)).
      f_equal. apply IH. lia.
Qed.

Lemma endswith_spec (suf s : string) :
  endswith suf s = true ↔ ∃ stem, s = stem +:+ suf.
Proof.
  unfold endswith. split.
  - intros [Hle Heq]%andb_prop. apply Nat.leb_le in Hle. apply String.eqb_eq in Heq.
    exists (String.substring 0 (String.length s - String.length suf) s).
    set (k := String.length suf) in *. rewrite <- Heq.
    etrans; [apply (substring_split s (String.length s - k)); lia|].
    do 2 f_equal. lia.
  - intros [stem ->]. rewrite string_length_app.
    apply andb_true_intro. split; [apply Nat.leb_le; lia|].
    replace (String.length stem + String.length suf - String.length suf)%nat
      with (String.length stem) by lia.
    rewrite substring_app_suffix. apply String.eqb_refl.
Qed.

(** The attributes that arithmetic operates on and those it treats as
    error bars split [array_attrs]: together they are a rearrangement of
    it; the error bars are the array attributes whose name is some stem
    followed by "_err", and the operated attributes are the array
    attributes whose name is not of that form. *)
Theorem operated_and_error_attrs_split_array_attrs (self : obj) :
  (_default_operated_attrs self ++ _default_error_attrs self)%list ≡ₚ array_attrs self
  ∧ (∀ attr, attr ∈ _default_error_attrs self ↔
       attr ∈ array_attrs self ∧ ∃ stem, attr = stem +:+ "_err")
  ∧ (∀ attr, attr ∈ _default_operated_attrs self ↔
       attr ∈ array_attrs self ∧ ¬ ∃ stem, attr = stem +:+ "_err").
Proof.
  split; [apply filter_split_Permutation|].
  unfold _default_operated_attrs, _default_error_attrs. split.
  - intros attr. by rewrite elem_of_filter_bool, endswith_spec.
  - intros attr. rewrite elem_of_filter_bool, negb_true_iff, <- endswith_spec.
    by rewrite not_true_iff_false.
Qed.

(** Every name in [array_attrs] or [internal_array_attrs] holds an array
    with as many rows as [time] has; an object without time stamps has no
    array attributes at all. *)
Theorem array_attrs_have_the_length_of_time (self : obj) (attr : string) :
  attr ∈ (array_attrs self ++ internal_array_attrs self)%list →
  ∃ t a, _time self = Some t ∧ lookup_attr self attr = Some (VArr a)
         ∧ plen (elems a) = plen (elems t) ∧ attr ≠ "time" ∧ attr ≠ "gti".
Proof.
  intros Hin.
  assert (Hin' : attr ∈ (internal_array_attrs self ++ array_attrs self)%list) by set_solver.
  destruct (all_attrs_spec _ _ Hin') as (Hplain & t & a & Ht & Ha & Hlen).
  exists t, a. repeat split; try done.
  - intros ->. done.
  - intros ->. done.
Qed.

(** The theorem on the series 1..9, whose [counts] has nine entries. *)
Lemma array_attrs_have_the_length_of_time_witness :
  ∃ self, objs (world_of (Scenarios.one_to_nine empty_world)) !! 0 = Some self
    ∧ ∃ t a, _time self = Some t ∧ lookup_attr self "counts" = Some (VArr a)
             ∧ plen (elems a) = plen (elems t) ∧ "counts" ≠ "time" ∧ "counts" ≠ "gti".
Proof.
  eexists. split; [vm_compute; reflexivity|].
  apply array_attrs_have_the_length_of_time.
  apply list_elem_of_In. vm_compute. tauto.
Defined.

End classifier_more.

(** ** Arguments that are rejected *)

Section rejected.
Import TimeseriesFields.
Variable np_sqrt : Q → Q.
Context {gti_module : GtiModule}.

(** On a time series the named methods [add] and [sub] and the operators
    [+=] and [-=] raise a [TypeError] whatever the operands are, and leave
    the store as it was: they pass the keyword [inplace] to
    [_operation_with_other_obj], which the override of [StingrayTimeseries]
    does not accept. *)
Theorem named_and_inplace_arithmetic_raise_TypeError (self : oid) (other : operand)
    (operated_attrs error_attrs : option (list string))
    (error_operation : option (Q → Q → Q)) (inplace : bool) (w : world) :
  ∃ msg,
    StingrayTimeseries.add self other operated_attrs error_attrs error_operation inplace w
    = Raise (TypeError msg) w
    ∧ StingrayTimeseries.sub self other operated_attrs error_attrs error_operation inplace w
      = Raise (TypeError msg) w
    ∧ StingrayTimeseries.__iadd__ np_sqrt self other w = Raise (TypeError msg) w
    ∧ StingrayTimeseries.__isub__ np_sqrt self other w = Raise (TypeError msg) w.
Proof. eexists. repeat split. Qed.

(** [truncate] looks at its arguments before it looks at the series: a
    method other than "index" and "time" (in any case) raises a
    [ValueError], and so does truncation by time with a stop that is
    earlier than the start; the store is left as it was. *)
Theorem truncate_rejects_bad_arguments (self : oid) (start : Q) (stop : option Q)
    (method : string) (w : world) :
  (lower method ∉ ["index"; "time"] →
   StingrayTimeseries.truncate self start stop method w
   = Raise (ValueError ("Unknown method type " ++ method ++ ".")) w)
  ∧ (∀ stop', lower method = "time" → stop = Some stop' → (stop' < start)%Q →
     StingrayTimeseries.truncate self start stop method w
     = Raise (ValueError "start time must be less than stop time!") w).
Proof.
  split.
  - intros Hm%mem_false. unfold StingrayTimeseries.truncate. by rewrite Hm.
  - intros stop' Hm -> Hlt. unfold StingrayTimeseries.truncate. rewrite Hm. simpl.
    unfold StingrayTimeseries._truncate_by_time.
    assert (Hq : qlt stop' start = true).
    { unfold qlt. apply negb_true_iff. apply not_true_is_false.
      intros Hle%Qle_bool_iff. by apply Qle_not_lt in Hle. }
    rewrite Hq. reflexivity.
Qed.

End rejected.

(** The theorem for [truncate(start=6, stop=2, method="TIME")] and for
    [truncate(method="bins")]. *)
Lemma truncate_rejects_bad_arguments_witness :
  ∃ w, w = world_of (Scenarios.one_to_nine empty_world)
    ∧ StingrayTimeseries.truncate (gti_module := SpecGti.spec_gti) 0 6 (Some 2%Q) "bins" w
      = Raise (ValueError "Unknown method type bins.") w
    ∧ StingrayTimeseries.truncate (gti_module := SpecGti.spec_gti) 0 6 (Some 2%Q) "TIME" w
      = Raise (ValueError "start time must be less than stop time!") w.
Proof.
  eexists. split; [reflexivity|]. split.
  - apply (proj1 (truncate_rejects_bad_arguments (gti_module := SpecGti.spec_gti) 0 6 (Some 2%Q) "bins" _)).
    intros H. apply list_elem_of_In in H. vm_compute in H. intuition congruence.
  - apply (proj2 (truncate_rejects_bad_arguments (gti_module := SpecGti.spec_gti) 0 6 (Some 2%Q) "TIME" _) 2%Q);
      [reflexivity|reflexivity|reflexivity].
Defined.

(** ** Length *)

Section length.
Import TimeseriesFields.

(** [len(ts)] is [np.size] of the time stamps and [ts.n] is their number of
    rows; neither changes the store.  For a series without time stamps the
    two differ: [n] is 0, but [len] is 1, the size of [None] as an array. *)
Theorem len_and_n_of_a_series (self : oid) (o : obj) (w : world) :
  objs w !! self = Some o →
  StingrayObject.__len__ self w
  = Ok (match _time o with Some t => psize (elems t) | None => 1%nat end) w
  ∧ FurtherMethods.n self w
    = Ok (match _time o with Some t => plen (elems t) | None => 0%nat end) w.
Proof.
  intros Ho. split.
  - unfold StingrayObject.__len__.
    erewrite bind_eq by (by apply getattr_time_eq). by destruct (_time o).
  - unfold FurtherMethods.n, getattr_default.
    pose proof (getattr_time_eq _ _ _ Ho) as Ht. unfold main_array_attr.
    unfold mbind at 1, M_bind at 1. rewrite Ht.
    destruct (_time o) as [t|]; simpl; [|done].
    erewrite bind_eq by exact Ht. reflexivity.
Qed.

(** The theorem on [StingrayTimeseries()]. *)
Lemma len_and_n_of_a_series_witness :
  let w := world_of (new_instance empty_world) in
  StingrayObject.__len__ 0 w = Ok 1%nat w ∧ FurtherMethods.n 0 w = Ok 0%nat w.
Proof.
  intros w. apply (len_and_n_of_a_series 0 fresh_obj w). vm_compute. reflexivity.
Defined.

End length.

(** ** Tables without rows *)

Section empty_table.
Import TimeseriesFields.

(** [from_astropy_table] on a table without rows returns the object that
    [StingrayTimeseries()] builds: the entries of [meta] are not copied. *)
Theorem from_astropy_table_without_rows (ts : Table) (w : world) :
  table_len ts = 0%nat →
  StingrayObject.from_astropy_table ts w = new_instance w
  ∧ returns (StingrayObject.from_astropy_table ts) w (λ cls w',
      cls = next_oid w ∧ objs w' !! cls = Some fresh_obj
      ∧ (∀ o, o ≠ cls → objs w' !! o = objs w !! o)
      ∧ next_buf w' = next_buf w ∧ warnings w' = warnings w).
Proof.
  intros Hlen.
  assert (Heq : StingrayObject.from_astropy_table ts w = new_instance w).
  { unfold StingrayObject.from_astropy_table.
    erewrite bind_eq by apply new_instance_eq. rewrite Hlen. simpl.
    by rewrite new_instance_eq. }
  split; [done|]. unfold returns. rewrite Heq, new_instance_eq.
  split; [done|]. split; [apply lookup_insert_eq|].
  split; [|done]. intros o Ho. simpl. by rewrite lookup_insert_ne.
Qed.

(** The theorem on a table that has a [meta] entry and no column. *)
Lemma from_astropy_table_without_rows_witness :
  returns (StingrayObject.from_astropy_table (MkTable [] [("mjdref", VNum 5)])) empty_world
    (λ cls w', objs w' !! cls = Some fresh_obj).
Proof.
  eapply returns_mono.
  - apply (proj2 (from_astropy_table_without_rows (MkTable [] [("mjdref", VNum 5)])
                    empty_world eq_refl)).
  - intros cls w' (_ & H & _). exact H.
Defined.

End empty_table.


(** ** The properties [gti] and [time] *)

Section fields.
Import AttributeClassifier TimeseriesFields.

Lemma lookup_high_precision (o : obj) : ∃ v, lookup_attr o "high_precision" = Some v.
Proof.
  unfold lookup_attr. simpl. destruct (__dict__ o !! "high_precision"); eauto.
Qed.

Lemma getattr_high_precision (self : oid) (o : obj) w :
  objs w !! self = Some o → ∃ v, getattr self "high_precision" w = Ok v w.
Proof.
  intros Ho. destruct (lookup_high_precision o) as [v Hv]. exists v.
  by eapply getattr_plain_eq.
Qed.

Lemma check_value_size_time_eq (self : oid) (o : obj) w :
  objs w !! self = Some o →
  ∀ a : ndarray,
    _check_value_size self (VArr a) "time" "time" w
    = match _time o with
      | None => Ok (VArr a) w
      | Some t =>
          if Nat.eqb (plen (elems a)) (plen (elems t)) then Ok (VArr a) w
          else Raise (ValueError "Can only assign new array of the same shape") w
      end.
Proof.
  intros Ho a. unfold _check_value_size.
  erewrite bind_eq.
  2:{ unfold getattr_default. by rewrite (getattr_time_eq _ _ _ Ho). }
  destruct (_time o) as [t|]; simpl; [|done].
  by destruct (plen (elems a) =? plen (elems t))%nat.
Qed.

(** Reading [gti] on a series that has time stamps, a scalar [dt] and no
    GTI yet builds the one interval from half a [dt] before the first time
    stamp to half a [dt] after the last one, and stores it: the object
    changes in its field [_gti] only, and reading [gti] again returns the
    same array and changes nothing.  The interval is stated for the
    numbers that binary floating point computes without rounding: the
    first and last time stamp, [dt], its half and the two bounds are all
    held exactly by a double. *)
Theorem gti_property_derives_and_stores (self : oid) (o : obj) (t : ndarray)
    (xs : list Q) (t0 t1 d : Q) (w : world) :
  objs w !! self = Some o → _gti o = None → _time o = Some t → elems t = A1 xs →
  head xs = Some t0 → last xs = Some t1 → lookup_attr o "dt" = Some (VNum d) →
  exact t0 = true → exact t1 = true → exact d = true → exact (qhalf d) = true →
  exact (qsub t0 (qhalf d)) = true → exact (qadd t1 (qhalf d)) = true →
  returns (getattr self "gti") w (λ v w',
    ∃ g, v = VArr g
      ∧ elems g = A2 [(qsub t0 (qhalf d), qadd t1 (qhalf d))]
      ∧ objs w' !! self = Some (Obj (_time o) (Some g) (__dict__ o))
      ∧ getattr self "gti" w' = Ok (VArr g) w'
      ∧ only_changes self w w').
Proof.
  intros Ho Hg Ht Hxs Hhd Hlast Hdt E0 E1 Ed Eh Elo Ehi.
  assert (Hd : derive_gti o t = inr (A2 [(qsub t0 (qhalf d), qadd t1 (qhalf d))])).
  { unfold derive_gti. rewrite Hdt. simpl. rewrite Hxs. simpl. rewrite Hhd, Hlast.
    simpl. unfold unrounded. rewrite E0. simpl. rewrite Ed. simpl. rewrite Eh. simpl.
    rewrite Elo. simpl. rewrite E1. simpl. rewrite Ehi. reflexivity. }
  unfold getattr, gti_getter. simpl.
  eapply returns_step; [by apply load_eq|]. rewrite Hg, Ht, Hd.
  unfold returns. simpl. eexists. split; [reflexivity|]. split; [reflexivity|].
  split; [apply lookup_insert_eq|]. split.
  - eapply (getattr_gti_stored self); [apply lookup_insert_eq|reflexivity].
  - split; [|simpl; repeat split; lia].
    intros o' Hne. simpl. by rewrite lookup_insert_ne.
Qed.

(** Assigning an array to [time].  On a series that has time stamps the
    array must have as many rows as they have, or a [ValueError] is raised
    and nothing changes; on a series without time stamps any array is
    taken.  When [high_precision] is false the array itself is stored, not
    a copy, and an array without entries is stored as [None] whatever
    [high_precision] is.  A scalar is rejected with a [ValueError]. *)
Theorem time_setter_checks_the_length (self : oid) (o : obj) (w : world) :
  objs w !! self = Some o →
  (∀ (a : ndarray) (hp : pyvalue),
     (match _time o with Some t => plen (elems a) = plen (elems t) | None => True end) →
     lookup_attr o "high_precision" = Some hp →
     psize (elems a) = 0%nat ∨ truth hp = inr false →
     setattr self "time" (VArr a) w
     = Ok () (with_obj w self
                (Obj (if Nat.eqb (psize (elems a)) 0 then None else Some a)
                     (_gti o) (__dict__ o))))
  ∧ (∀ (a t : ndarray), _time o = Some t → plen (elems a) ≠ plen (elems t) →
       ∃ msg, setattr self "time" (VArr a) w = Raise (ValueError msg) w)
  ∧ (∀ v, isscalar v = true →
       ∃ msg, setattr self "time" v w = Raise (ValueError msg) w).
Proof.
  intros Ho.
  pose proof (check_value_size_time_eq self o w Ho) as Hcheck.
  split; [|split].
  - intros a hp Hlen Hhp Hcase.
    change (setattr self "time" (VArr a)) with (time_setter self (VArr a)).
    unfold time_setter. erewrite bind_eq.
    2:{ rewrite Hcheck. destruct (_time o) as [t|]; [|reflexivity].
        rewrite Hlen, Nat.eqb_refl. reflexivity. }
    simpl. erewrite bind_eq by reflexivity.
    erewrite bind_eq by (by eapply getattr_plain_eq). unfold _set_times.
    destruct (psize (elems a) =? 0)%nat eqn:Hsize.
    + by apply setattr_private_time_none_eq.
    + destruct Hcase as [Hz|Htruth]; [apply Nat.eqb_neq in Hsize; done|].
      rewrite Htruth. erewrite bind_eq by reflexivity.
      by apply setattr_private_time_arr_eq.
  - intros a t Ht Hlen. change (setattr self "time" (VArr a)) with (time_setter self (VArr a)).
    unfold time_setter. apply Nat.eqb_neq in Hlen. eexists.
    erewrite bind_raise; [reflexivity|].
    rewrite Hcheck, Ht, Hlen. reflexivity.
  - intros v Hv. unfold setattr, time_setter, _check_value_size. simpl.
    destruct v; try done; eauto.
Qed.

(** The theorem on the series 1..9: nine new time stamps are taken, three
    are refused. *)
Lemma time_setter_checks_the_length_witness :
  let w := world_of (Scenarios.one_to_nine empty_world) in
  let nine := NdArray 7 (A1 (Scenarios.ints [2; 3; 4; 5; 6; 7; 8; 9; 10]%Z)) in
  let three := NdArray 8 (A1 (Scenarios.ints [1; 2; 3]%Z)) in
  (∃ o, objs w !! 0 = Some o
        ∧ setattr 0 "time" (VArr nine) w
          = Ok () (with_obj w 0 (Obj (Some nine) (_gti o) (__dict__ o))))
  ∧ ∃ msg, setattr 0 "time" (VArr three) w = Raise (ValueError msg) w.
Proof.
  intros w nine three. split.
  - eexists. split; [vm_compute; reflexivity|].
    unshelve eapply (proj1 (time_setter_checks_the_length 0 _ w _) nine (VBool false) _ _ _);
      [vm_compute; reflexivity|vm_compute; reflexivity|vm_compute; reflexivity|].
    right. reflexivity.
  - unshelve eapply (proj1 (proj2 (time_setter_checks_the_length 0 _ w _)) three _ _ _);
      [shelve|vm_compute; reflexivity|shelve|vm_compute; reflexivity|].
    vm_compute. discriminate.
Defined.

(** Assigning [None] to [time] sets every array attribute of the object to
    [None] and removes the time stamps; [_gti] and the other entries stay,
    and no other object is touched.  Afterwards the object has no array
    attributes. *)
Theorem setting_time_to_None_clears_the_arrays (self : oid) (o : obj) (w : world) :
  objs w !! self = Some o →
  returns (setattr self "time" VNone) w (λ _ w',
    only_changes self w w' ∧ next_buf w' = next_buf w
    ∧ ∃ o', objs w' !! self = Some o'
        ∧ _time o' = None ∧ _gti o' = _gti o
        ∧ (∀ attr, attr ∈ (internal_array_attrs o ++ array_attrs o)%list →
             __dict__ o' !! attr = Some VNone)
        ∧ (∀ name, name ∉ (internal_array_attrs o ++ array_attrs o)%list →
             __dict__ o' !! name = __dict__ o !! name)
        ∧ array_attrs o' = [] ∧ internal_array_attrs o' = []).
Proof.
  intros Ho. unfold setattr, time_setter, _check_value_size. simpl.
  eapply returns_step; [reflexivity|]. simpl.
  apply returns_bind. apply returns_bind.
  eapply returns_eq; [by apply load_eq|]. cbn beta.
  set (all_attrs := (internal_array_attrs o ++ array_attrs o)%list).
  eapply returns_mono.
  { apply (for_each_returns all_attrs _
             (λ done w', only_changes self w w' ∧ next_buf w' = next_buf w
                ∧ ∃ o', objs w' !! self = Some o'
                    ∧ _time o' = _time o ∧ _gti o' = _gti o
                    ∧ (∀ attr, attr ∈ done → __dict__ o' !! attr = Some VNone)
                    ∧ (∀ name, name ∉ done → __dict__ o' !! name = __dict__ o !! name))).
    - split; [apply only_changes_refl|]. split; [done|].
      exists o. repeat split; try done. by intros ? ?%elem_of_nil.
    - intros done attr todo w' Hall (Hch & Hnb & o' & Ho' & Ht & Hg & Hd & Hn).
      assert (Hattr : attr ∈ all_attrs) by (rewrite Hall; set_solver).
      destruct (all_attrs_spec _ _ Hattr) as (Hplain & _).
      pose proof (setattr_plain_eq self attr VNone w' o' Hplain Ho') as Hset.
      assert (Hset' : setattr_plain self attr VNone w'
                      = Ok () (with_obj w' self
                                 (Obj (_time o') (_gti o') (<[attr := VNone]> (__dict__ o'))))).
      { rewrite <- Hset. unfold setattr.
        apply plain_name_spec in Hplain as (H1 & H2 & _ & H3 & _). by rewrite H1, H2, H3. }
      eapply returns_eq; [exact Hset'|].
      split.
      { eapply only_changes_trans; [exact Hch|].
        pose proof (only_changes_with_obj self w' (next_buf w')
                      (Obj (_time o') (_gti o') (<[attr := VNone]> (__dict__ o')))) as H.
        replace (with_buf w' (next_buf w')) with w' in H by (by destruct w').
        apply H. lia. }
      split; [done|].
      eexists. split; [apply with_obj_lookup|]. simpl.
      split; [done|]. split; [done|]. split.
      + intros attr' [Hin| ->%list_elem_of_singleton]%elem_of_app.
        * destruct (decide (attr' = attr)) as [->|Hne];
            [apply lookup_insert_eq|rewrite lookup_insert_ne by done; auto].
        * apply lookup_insert_eq.
      + intros name Hname. rewrite lookup_insert_ne by set_solver.
        apply Hn. set_solver. }
  intros [] w1 (Hch & Hnb & o1 & Ho1 & Ht1 & Hg1 & Hd1 & Hn1).
  destruct (getattr_high_precision _ _ w1 Ho1) as [hp Hhp].
  eapply returns_step; [exact Hhp|].
  eapply returns_eq; [by apply setattr_private_time_none_eq|].
  split.
  { eapply only_changes_trans; [exact Hch|].
    pose proof (only_changes_with_obj self w1 (next_buf w1)
                  (Obj None (_gti o1) (__dict__ o1))) as H.
    replace (with_buf w1 (next_buf w1)) with w1 in H by (by destruct w1).
    apply H. lia. }
  split; [done|].
  eexists. split; [apply with_obj_lookup|]. simpl. repeat split; done.
Qed.

(** The theorem on the series 1..9, which is built without a GTI and with
    [dt=1]: the GTI read is [[0.5, 9.5]]. *)
Lemma gti_property_derives_and_stores_witness :
  let w := world_of (Scenarios.one_to_nine empty_world) in
  returns (getattr 0 "gti") w (λ v w',
    ∃ g, v = VArr g ∧ elems g = A2 [(1 # 2, 19 # 2)]%Q
         ∧ getattr 0 "gti" w' = Ok (VArr g) w').
Proof.
  intros w. eapply returns_mono.
  - unshelve eapply (gti_property_derives_and_stores 0 _ _ _ 1 9 1 w _ _ _ _ _ _ _
                       _ _ _ _ _ _);
      [shelve|shelve|shelve|vm_compute; reflexivity..].
  - intros v w' (g & -> & Hg & _ & Hget & _). exists g.
    split; [done|]. split; [|done]. rewrite Hg. reflexivity.
Defined.

(** The theorem on the series 1..9: its [counts] is [None] afterwards. *)
Lemma setting_time_to_None_clears_the_arrays_witness :
  let w := world_of (Scenarios.one_to_nine empty_world) in
  returns (setattr 0 "time" VNone) w (λ _ w',
    ∃ o', objs w' !! 0 = Some o' ∧ _time o' = None
          ∧ __dict__ o' !! "counts" = Some VNone).
Proof.
  intros w. eapply returns_mono.
  - unshelve eapply (setting_time_to_None_clears_the_arrays 0 _ w _);
      [shelve|vm_compute; reflexivity].
  - intros [] w' (_ & _ & o' & Ho' & Ht & _ & Hd & _). exists o'.
    split; [done|]. split; [done|]. apply Hd.
    apply list_elem_of_In. vm_compute. tauto.
Defined.

(** ** The constructor *)

Ltac obj_at := first [apply with_obj_lookup | (cbn [objs with_obj]; apply lookup_insert_eq)].
Ltac init_step :=
  first [ apply setattr_plain_eq; [reflexivity|obj_at]
        | apply setattr_gti_none_eq; obj_at
        | apply setattr_gti_arr_eq; obj_at
        | apply setattr_private_time_none_eq; obj_at
        | apply setattr_private_time_arr_eq; obj_at ].

Lemma init_raises (time : option (list Q)) (kw : string) (ys : list Q)
    (rest : list (string * list Q)) (mjdref notes : pyvalue) (gti : option (list (Q * Q)))
    (hp ephem timeref timesys dt : pyvalue) (w : world) :
  match time with
  | Some (x :: xs) => length (x :: xs) ≠ length ys ∧ truth hp = inr false
  | _ => True
  end →
  raises (__init__ time ((kw, ys) :: rest) mjdref notes gti hp ephem timeref timesys
            [("dt", dt)]) w
    (λ e, match time with
          | Some (_ :: _) => is_ValueError e
          | _ => is_AttributeError e
          end).
Proof.
  intros Hlen. unfold __init__.
  destruct gti as [rows|], time as [[|x xs]|];
  try (destruct Hlen as [Hlen Hhp]);
  (eapply raises_step; [reflexivity|]);
  repeat (eapply raises_step;
          [first [ init_step
                 | erewrite bind_eq by reflexivity;
                   first [ init_step
                         | unfold _set_times; cbn; init_step
                         | unfold _set_times; cbn; rewrite Hhp;
                           erewrite bind_eq by reflexivity; init_step ]
                 | unfold _set_times; cbn; init_step
                 | reflexivity ]|];
          rewrite ?with_obj_with_obj; cbn [_time _gti __dict__]);
  cbn [for_each]; apply raises_bind_l, raises_bind_l;
  (eapply raises_step; [reflexivity|]);
  (eapply raises_step; [apply getattr_time_eq; obj_at|]);
  cbn [_time of_option shape0 elems plen fst snd]; try done;
  apply Nat.eqb_neq in Hlen; rewrite Hlen; done.
Qed.

(** The constructor called with [dt] as its only additional keyword
    compares every array attribute with the time stamps, in the order of
    the dictionary: when the first one has another number of entries than
    the (non-empty) time stamps, it raises a [ValueError]; when there are
    no time stamps at all ([time] is [None] or empty), it raises an
    [AttributeError] at the first array attribute, as it asks [None] for
    its shape.  The [ValueError] is stated for [high_precision] false. *)
Theorem constructor_checks_the_length_of_array_attrs (time : option (list Q))
    (kw : string) (ys : list Q) (rest : list (string * list Q)) (mjdref notes : pyvalue)
    (gti : option (list (Q * Q))) (hp ephem timeref timesys dt : pyvalue) (w : world) :
  (time = None ∨ time = Some [] →
   raises (__init__ time ((kw, ys) :: rest) mjdref notes gti hp ephem timeref timesys
             [("dt", dt)]) w is_AttributeError)
  ∧ (∀ xs, time = Some xs → xs ≠ [] → length xs ≠ length ys → truth hp = inr false →
     raises (__init__ time ((kw, ys) :: rest) mjdref notes gti hp ephem timeref timesys
               [("dt", dt)]) w is_ValueError).
Proof.
  split.
  - intros Ht.
    pose proof (init_raises time kw ys rest mjdref notes gti hp ephem timeref timesys dt w)
      as H.
    destruct Ht as [-> | ->]; by apply H.
  - intros xs -> Hne Hlen Hhp.
    pose proof (init_raises (Some xs) kw ys rest mjdref notes gti hp ephem timeref timesys
                  dt w) as H.
    destruct xs as [|x xs]; [done|]. by apply H.
Qed.

(** The theorem on
    [StingrayTimeseries([1, 2, 3], array_attrs=dict(counts=[10, 20]), dt=1)]
    and on [StingrayTimeseries(array_attrs=dict(counts=[10, 20]), dt=1)]. *)
Lemma constructor_checks_the_length_of_array_attrs_witness :
  raises (__init__ (Some (Scenarios.ints [1; 2; 3]%Z)) [("counts", Scenarios.ints [10; 20]%Z)]
            (VNum 0) (VStr "") None (VBool false) VNone VNone VNone [("dt", VNum 1)])
    empty_world is_ValueError
  ∧ raises (__init__ None [("counts", Scenarios.ints [10; 20]%Z)]
              (VNum 0) (VStr "") None (VBool false) VNone VNone VNone [("dt", VNum 1)])
      empty_world is_AttributeError.
Proof.
  split.
  - apply (proj2 (constructor_checks_the_length_of_array_attrs
                    (Some (Scenarios.ints [1; 2; 3]%Z)) "counts" (Scenarios.ints [10; 20]%Z) []
                    (VNum 0) (VStr "") None (VBool false) VNone VNone VNone (VNum 1)
                    empty_world) (Scenarios.ints [1; 2; 3]%Z) eq_refl);
      [vm_compute; discriminate|vm_compute; discriminate|reflexivity].
  - apply (proj1 (constructor_checks_the_length_of_array_attrs
                    None "counts" (Scenarios.ints [10; 20]%Z) []
                    (VNum 0) (VStr "") None (VBool false) VNone VNone VNone (VNum 1)
                    empty_world)).
    by left.
Defined.

End fields.


(** ** The inputs of [join] *)

Section join.
Import AttributeClassifier TimeseriesFields.




End join.



(** ** Rebinning *)

Section rebin.
Import AttributeClassifier TimeseriesFields.
Variable rebin_data :
  list Q → list Q → Q → option (list Q) → string → exn + (list Q * list Q * list Q).







End rebin.

